(** * Pending-build dispatch of the scheduler (atc/scheduler/buildstarter.go)

    A shallow embedding of [TryStartPendingBuildsForJob] and of
    [tryStartNextPendingBuild], together with the properties of the
    dispatch loop and of the per-build start procedure.

    The Go code talks to its collaborators (storage, the readiness strategy,
    the plan compiler, the metrics counter, the logger) through interfaces.
    The embedding keeps them as interface values: records of methods acting
    on an arbitrary world [W].  Every method invocation is recorded in a
    trace, so that "no claim was attempted" or "one terminal-status write"
    are statements about the trace of a run. *)

From Stdlib Require Import ZArith List String Bool.
From Stdlib Require Import Ascii Permutation.
Import ListNotations.

Local Open Scope Z_scope.
Local Open Scope list_scope.

(** ** Errors *)

(** A Go [error] value: either one handed back by a collaborator, or one made
    by [fmt.Errorf("<prefix>: %w", cause)]. *)
Inductive error : Type :=
| ErrCollaborator (msg : string)
| fmt_Errorf_w (prefix : string) (cause : error).

(** ** Build statuses written by this file ([db.BuildStatusAborted],
    [db.BuildStatusErrored]). *)
Inductive BuildStatus : Type :=
| BuildStatusAborted
| BuildStatusErrored.

(** ** The logger

    A [lager.Logger] is identified by its chain of session names; the
    [lager.Data] attached by [Session] (build id and name) is not kept. *)
Definition lager_Logger : Type := list string.

Definition Session (logger : lager_Logger) (task : string) : lager_Logger :=
  logger ++ [task].

(** ** The result record of the per-build procedure (lines 134-138) *)
Record startResults : Type := mkStartResults {
  aborted : bool;
  scheduled : bool;
  readyToDetermineInputs : bool
}.

(** [startResults{}]: every field is Go's zero value. *)
Definition startResults_zero : startResults := mkStartResults false false false.

Section Scheduler.

(** The world the collaborators act on (durable storage, counters). *)
Context {W : Type}.

(** Data the dispatch code only passes along. *)
Context {atc_JobInput atc_Source atc_JobConfig atc_VersionedResourceTypes
         atc_Plan db_BuildInput db_ResourceTypes Algorithm NameToIDMap : Type}.

(** [resourceTypes.Deserialize()] *)
Variable Deserialize : db_ResourceTypes -> atc_VersionedResourceTypes.

(** *** Interfaces *)

(** [db.Build].  Identity, name, manual-trigger flag and re-run reference
    are fixed when the build is created; the abort flag and the status live
    in storage. *)
Record db_Build : Type := {
  ID : Z;
  Name : string;
  IsManuallyTriggered : bool;
  RerunOf : Z;
  IsAborted : W -> bool * W;
  Finish : BuildStatus -> W -> option error * W;
  Start : atc_Plan -> W -> (bool * option error) * W
}.

(** [db.Resource], as far as line 226-233 reads it. *)
Record db_Resource : Type := {
  Resource_Name : string;
  Resource_Type : string;
  Resource_Source : atc_Source;
  Resource_Tags : list string
}.

Definition db_Resources : Type := list db_Resource.

(** [atc.ResourceConfig] *)
Record atc_ResourceConfig : Type := {
  rc_Name : string;
  rc_Type : string;
  rc_Source : atc_Source;
  rc_Tags : list string
}.

Definition atc_ResourceConfigs : Type := list atc_ResourceConfig.

(** [db.Pipeline] *)
Record db_Pipeline : Type := {
  CheckPaused : W -> (bool * option error) * W;
  ResourceTypes : W -> (db_ResourceTypes * option error) * W
}.

(** [db.Job] *)
Record db_Job : Type := {
  GetPendingBuilds : W -> (list db_Build * option error) * W;
  Paused : W -> bool * W;
  ScheduleBuild : db_Build -> W -> (bool * option error) * W;
  Config : W -> (atc_JobConfig * option error) * W
}.

(** [BuildFactory] (lines 29-31) *)
Record BuildFactory : Type := {
  Create : atc_JobConfig -> atc_ResourceConfigs -> atc_VersionedResourceTypes ->
           list db_BuildInput -> W -> (atc_Plan * option error) * W
}.

(** [buildStarter] (lines 50-53) *)
Record buildStarter : Type := {
  factory : BuildFactory;
  algorithm : Algorithm
}.

(** The scheduler's [Build] (lines 33-38): a [db.Build] wrapped in one of
    the three variants [constructBuilds] makes. *)
Inductive Build : Type :=
| manualTriggerBuild (Build_ : db_Build) (algorithm_ : Algorithm) (job : db_Job)
    (jobInputs : list atc_JobInput) (resources : db_Resources)
    (relatedJobIDs : NameToIDMap)
| rerunBuild (Build_ : db_Build)
| schedulerBuild (Build_ : db_Build).

(** The embedded [db.Build], whose methods the wrapper promotes. *)
Definition embedded (b : Build) : db_Build :=
  match b with
  | manualTriggerBuild d _ _ _ _ _ => d
  | rerunBuild d => d
  | schedulerBuild d => d
  end.

(** The two methods the variants add to [db.Build].  Their bodies are
    declared elsewhere in the package; they are left open here. *)
Variable IsReadyToDetermineInputs : Build -> lager_Logger -> W -> bool * W.
Variable BuildInputs : Build -> W -> (list db_BuildInput * bool * option error) * W.

(** [metric.BuildsStarted.Inc()], a package-level counter. *)
Variable BuildsStarted_Inc : W -> W.

(** Line 100 reads [results.needsRetry], a field that [startResults]
    (lines 134-138) does not declare.  The value read there is left open. *)
Variable needsRetry : startResults -> bool.

(** *** Traces *)

Inductive event : Type :=
| EGetPendingBuilds
| EPaused
| EScheduleBuild (id : Z)
| EConfig
| ECheckPaused
| EResourceTypes
| EIsAborted (id : Z)
| EFinish (id : Z) (status : BuildStatus)
| EStart (id : Z) (plan : atc_Plan)
| EIsReadyToDetermineInputs (id : Z)
| EBuildInputs (id : Z)
| ECreate (config : atc_JobConfig) (resourceConfigs : atc_ResourceConfigs)
    (resourceTypes : atc_VersionedResourceTypes) (buildInputs : list db_BuildInput)
| EBuildsStartedInc
| ELogDebug (logger : lager_Logger) (action : string)
| ELogError (logger : lager_Logger) (action : string) (err : error).

Definition trace : Type := list event.

(** A scheduling claim. *)
Definition is_claim (e : event) : bool :=
  match e with EScheduleBuild _ => true | _ => false end.

(** A write of a build's status: [Finish] or [Start]. *)
Definition is_status_write (e : event) : bool :=
  match e with EFinish _ _ | EStart _ _ => true | _ => false end.

(** A terminal-status write: [Finish]. *)
Definition is_finish (e : event) : bool :=
  match e with EFinish _ _ => true | _ => false end.

(** An invocation of the plan compiler. *)
Definition is_compile (e : event) : bool :=
  match e with ECreate _ _ _ _ => true | _ => false end.

(** A read of a pause flag. *)
Definition is_pause_check (e : event) : bool :=
  match e with ECheckPaused | EPaused => true | _ => false end.

(** *** The monad of function bodies

    A Go function is a computation [Comp R] on the world that yields its
    return value and the trace of its calls.  Inside a body, [M R A] is a
    statement sequence that either has executed [return r] ([inl r]) or
    goes on with a value [A] ([inr a]). *)

Definition Comp (R : Type) : Type := W -> R * W * trace.

Definition M (R A : Type) : Type := W -> (R + A) * W * trace.

Definition ret {R A} (a : A) : M R A := fun w => (inr a, w, []).

Definition Return {R A} (r : R) : M R A := fun w => (inl r, w, []).

Definition bind {R A B} (m : M R A) (k : A -> M R B) : M R B :=
  fun w =>
    let '(x, w1, t1) := m w in
    match x with
    | inl r => (inl r, w1, t1)
    | inr a => let '(y, w2, t2) := k a w1 in (y, w2, t1 ++ t2)
    end.

(** A method call on a collaborator, recorded as [e]. *)
Definition invoke {R A} (e : event) (method : W -> A * W) : M R A :=
  fun w => let '(a, w1) := method w in (inr a, w1, [e]).

(** A call that returns nothing. *)
Definition perform {R} (e : event) (method : W -> W) : M R unit :=
  fun w => (inr tt, method w, [e]).

(** The body of a function, closed: falling off the end and [return] agree. *)
Definition func {R} (body : M R R) : Comp R :=
  fun w =>
    let '(x, w1, t) := body w in
    (match x with inl r => r | inr r => r end, w1, t).

(** A call of another function of this file. *)
Definition call {R A} (c : Comp A) : M R A :=
  fun w => let '(a, w1, t) := c w in (inr a, w1, t).

Definition Debug {R} (logger : lager_Logger) (action : string) : M R unit :=
  fun w => (inr tt, w, [ELogDebug logger action]).

Definition Error {R} (logger : lager_Logger) (action : string) (err : error) : M R unit :=
  fun w => (inr tt, w, [ELogError logger action err]).

(** [if c { body }] *)
Definition when {R} (c : bool) (body : M R unit) : M R unit :=
  if c then body else ret tt.

(** [for _, x := range l { body x }] *)
Fixpoint for_range {R A} (l : list A) (body : A -> M R unit) : M R unit :=
  match l with
  | [] => ret tt
  | x :: rest => bind (body x) (fun _ => for_range rest body)
  end.


Declare Scope go_scope.
Delimit Scope go_scope with go.

Notation "x <- m ;; k" := (bind m (fun x => k))
  (at level 100, m at next level, right associativity) : go_scope.
Notation "' p <- m ;; k" := (bind m (fun x => let 'p := x in k))
  (at level 100, p pattern, m at next level, right associativity) : go_scope.
Notation "m ;; k" := (bind m (fun _ => k))
  (at level 100, right associativity) : go_scope.

Local Open Scope go_scope.

(** *** [constructBuilds] (lines 107-132) *)

(** The variant one pending build is wrapped in (lines 111-128). *)
Definition constructBuild (s : buildStarter) (job : db_Job)
    (jobInputs : list atc_JobInput) (resources : db_Resources)
    (relatedJobIDs : NameToIDMap) (nextPendingBuild : db_Build) : Build :=
  if IsManuallyTriggered nextPendingBuild then
    manualTriggerBuild nextPendingBuild (algorithm s) job jobInputs resources relatedJobIDs
  else if negb (RerunOf nextPendingBuild =? 0) then
    rerunBuild nextPendingBuild
  else
    schedulerBuild nextPendingBuild.

(** The loop appends one wrapper per pending build to [buildsToSchedule],
    which starts out nil. *)
Definition constructBuilds (s : buildStarter) (job : db_Job)
    (jobInputs : list atc_JobInput) (resources : db_Resources)
    (relatedJobIDs : NameToIDMap) (builds : list db_Build) : list Build :=
  fold_left
    (fun buildsToSchedule nextPendingBuild =>
       buildsToSchedule ++
       [constructBuild s job jobInputs resources relatedJobIDs nextPendingBuild])
    builds [].

(** *** [tryStartNextPendingBuild] (lines 140-277) *)

(** Lines 225-233: one [atc.ResourceConfig] per resource, in order. *)
Definition resourceConfigsOf (resources : db_Resources) : atc_ResourceConfigs :=
  fold_left
    (fun resourceConfigs v =>
       resourceConfigs ++
       [{| rc_Name := Resource_Name v; rc_Type := Resource_Type v;
           rc_Source := Resource_Source v; rc_Tags := Resource_Tags v |}])
    resources [].

Definition tryStartNextPendingBuild (s : buildStarter) (logger : lager_Logger)
    (pipeline : db_Pipeline) (nextPendingBuild : Build) (job : db_Job)
    (resources : db_Resources) : Comp (startResults * option error) :=
  let build := embedded nextPendingBuild in
  func (
    let logger := Session logger "try-start-next-pending-build" in
    isAborted <- invoke (EIsAborted (ID build)) (IsAborted build) ;;
    when isAborted (
      Debug logger "cancel-aborted-pending-build" ;;
      err <- invoke (EFinish (ID build) BuildStatusAborted) (Finish build BuildStatusAborted) ;;
      match err with
      | Some e => Return (startResults_zero, Some (fmt_Errorf_w "finish aborted build" e))
      | None => ret tt
      end ;;
      Return (mkStartResults true false false, None)) ;;
    '(pipelinePaused, err) <- invoke ECheckPaused (CheckPaused pipeline) ;;
    match err with
    | Some e => Return (startResults_zero, Some (fmt_Errorf_w "check pipeline paused" e))
    | None => ret tt
    end ;;
    when pipelinePaused (
      Debug logger "pipeline-paused" ;;
      Return (startResults_zero, None)) ;;
    jobPaused <- invoke EPaused (Paused job) ;;
    when jobPaused (
      Debug logger "job-paused" ;;
      Return (startResults_zero, None)) ;;
    '(scheduled, err) <- invoke (EScheduleBuild (ID build)) (ScheduleBuild job build) ;;
    match err with
    | Some e => Return (startResults_zero, Some (fmt_Errorf_w "schedule build" e))
    | None => ret tt
    end ;;
    when (negb scheduled) (
      Debug logger "build-not-scheduled" ;;
      Return (mkStartResults false scheduled false, None)) ;;
    readyToDetermineInputs <-
      invoke (EIsReadyToDetermineInputs (ID build))
             (IsReadyToDetermineInputs nextPendingBuild logger) ;;
    (* line 193 tests the [err] of the scheduling claim again *)
    match err with
    | Some e => Return (startResults_zero, Some (fmt_Errorf_w "prepare inputs" e))
    | None => ret tt
    end ;;
    when (negb readyToDetermineInputs) (
      Return (mkStartResults false scheduled readyToDetermineInputs, None)) ;;
    '(buildInputs, found, err) <- invoke (EBuildInputs (ID build)) (BuildInputs nextPendingBuild) ;;
    match err with
    | Some e => Return (startResults_zero, Some (fmt_Errorf_w "get build inputs" e))
    | None => ret tt
    end ;;
    when (negb found) (
      Debug logger "build-inputs-not-found" ;;
      Return (mkStartResults false scheduled readyToDetermineInputs, None)) ;;
    '(resourceTypes, err) <- invoke EResourceTypes (ResourceTypes pipeline) ;;
    match err with
    | Some e => Return (startResults_zero, Some (fmt_Errorf_w "find resource types" e))
    | None => ret tt
    end ;;
    let resourceConfigs := resourceConfigsOf resources in
    '(config, err) <- invoke EConfig (Config job) ;;
    match err with
    | Some e => Return (startResults_zero, Some (fmt_Errorf_w "config" e))
    | None => ret tt
    end ;;
    '(plan, err) <-
      invoke (ECreate config resourceConfigs (Deserialize resourceTypes) buildInputs)
             (Create (factory s) config resourceConfigs (Deserialize resourceTypes) buildInputs) ;;
    match err with
    | Some e =>
        Error logger "failed-to-create-build-plan" e ;;
        err <- invoke (EFinish (ID build) BuildStatusErrored) (Finish build BuildStatusErrored) ;;
        match err with
        | Some e =>
            Error logger "failed-to-mark-build-as-errored" e ;;
            Return (startResults_zero, Some (fmt_Errorf_w "finish build" e))
        | None => ret tt
        end ;;
        Return (startResults_zero, None)
    | None => ret tt
    end ;;
    '(started, err) <- invoke (EStart (ID build) plan) (Start build plan) ;;
    match err with
    | Some e =>
        Error logger "failed-to-mark-build-as-started" e ;;
        Return (startResults_zero, Some (fmt_Errorf_w "start build" e))
    | None => ret tt
    end ;;
    when (negb started) (
      err <- invoke (EFinish (ID build) BuildStatusAborted) (Finish build BuildStatusAborted) ;;
      match err with
      | Some e =>
          Error logger "failed-to-mark-build-as-finished" e ;;
          Return (startResults_zero, Some (fmt_Errorf_w "finish build" e))
      | None => ret tt
      end ;;
      Return (mkStartResults false scheduled readyToDetermineInputs, None)) ;;
    perform EBuildsStartedInc BuildsStarted_Inc ;;
    Return (mkStartResults false scheduled readyToDetermineInputs, None)).

(** The calls of a run of [tryStartNextPendingBuild] that gets as far as the
    plan compiler and sees it fail with [e] (lines 152-245). *)
Definition compileFailureEvents (logger : lager_Logger) (resources : db_Resources)
    (b : Build) (config : atc_JobConfig) (rts : db_ResourceTypes)
    (inputs : list db_BuildInput) (e : error) : trace :=
  [EIsAborted (ID (embedded b)); ECheckPaused; EPaused;
   EScheduleBuild (ID (embedded b));
   EIsReadyToDetermineInputs (ID (embedded b));
   EBuildInputs (ID (embedded b));
   EResourceTypes; EConfig;
   ECreate config (resourceConfigsOf resources) (Deserialize rts) inputs;
   ELogError (Session logger "try-start-next-pending-build")
     "failed-to-create-build-plan" e;
   EFinish (ID (embedded b)) BuildStatusErrored].

(** *** [TryStartPendingBuildsForJob] (lines 55-105) *)

(** The guard of line 94. *)
Definition notScheduledOrNotReady (results : startResults) : bool :=
  negb (scheduled results) || negb (readyToDetermineInputs results).

(** The guard of line 98. *)
Definition scheduledNotReadyNotRerun (results : startResults)
    (nextSchedulableBuild : Build) : bool :=
  scheduled results && negb (readyToDetermineInputs results)
  && (RerunOf (embedded nextSchedulableBuild) =? 0).

(** The body of the [for] statement, lines 85-101. *)
Definition dispatchBuild (s : buildStarter) (logger : lager_Logger)
    (pipeline : db_Pipeline) (job : db_Job) (resources : db_Resources)
    (nextSchedulableBuild : Build) : M (bool * option error) unit :=
  '(results, err) <-
    call (tryStartNextPendingBuild s logger pipeline nextSchedulableBuild job resources) ;;
  match err with
  | Some e => Return (false, Some e)
  | None => ret tt
  end ;;
  if aborted results then
    ret tt (* continue *)
  else
    when (notScheduledOrNotReady results) (
      Return (true, None)) ;;
    when (scheduledNotReadyNotRerun results nextSchedulableBuild) (
      (* stop scheduling next builds after failing to schedule a build *)
      Return (needsRetry results, None)).

Definition TryStartPendingBuildsForJob (s : buildStarter) (logger : lager_Logger)
    (pipeline : db_Pipeline) (job : db_Job) (jobInputs : list atc_JobInput)
    (resources : db_Resources) (relatedJobs : NameToIDMap) : Comp (bool * option error) :=
  func (
    '(nextPendingBuilds, err) <- invoke EGetPendingBuilds (GetPendingBuilds job) ;;
    match err with
    | Some e => Return (false, Some (fmt_Errorf_w "get pending builds" e))
    | None => ret tt
    end ;;
    let buildsToSchedule :=
      constructBuilds s job jobInputs resources relatedJobs nextPendingBuilds in
    for_range buildsToSchedule (dispatchBuild s logger pipeline job resources) ;;
    Return (false, None)).

(** *** [NewBuildStarter] (lines 40-48) *)
Definition NewBuildStarter (factory_ : BuildFactory) (algorithm_ : Algorithm)
    : buildStarter :=
  {| factory := factory_; algorithm := algorithm_ |}.

(** *** Reading traces *)

(** The build a call is made on, for the calls made on a build. *)
Definition event_build (e : event) : option Z :=
  match e with
  | EScheduleBuild id | EIsAborted id | EFinish id _ | EStart id _
  | EIsReadyToDetermineInputs id | EBuildInputs id => Some id
  | _ => None
  end.

(** The builds whose abort flag is read, in the order of the reads. *)
Definition abortChecks (t : trace) : list Z :=
  flat_map (fun e => match e with EIsAborted id => [id] | _ => [] end) t.

(** An increment of the "builds started" counter. *)
Definition is_counter_inc (e : event) : bool :=
  match e with EBuildsStartedInc => true | _ => false end.

(** A [Start] call. *)
Definition is_start (e : event) : bool :=
  match e with EStart _ _ => true | _ => false end.


(** The calls of a run of [tryStartNextPendingBuild] that gets as far as
    [Start] with the compiled [plan] (lines 152-253). *)
Definition startAttemptEvents (resources : db_Resources) (b : Build)
    (config : atc_JobConfig) (rts : db_ResourceTypes)
    (inputs : list db_BuildInput) (plan : atc_Plan) : trace :=
  [EIsAborted (ID (embedded b)); ECheckPaused; EPaused;
   EScheduleBuild (ID (embedded b));
   EIsReadyToDetermineInputs (ID (embedded b));
   EBuildInputs (ID (embedded b));
   EResourceTypes; EConfig;
   ECreate config (resourceConfigsOf resources) (Deserialize rts) inputs;
   EStart (ID (embedded b)) plan].

(** The plan of [b] compiles: run from [w], every step of
    [tryStartNextPendingBuild] up to and including the plan compiler goes
    through (lines 152-251), which leaves the world [w'] and the [plan]. *)
Definition planCompiles (s : buildStarter) (logger : lager_Logger)
    (pipeline : db_Pipeline) (b : Build) (job : db_Job) (resources : db_Resources)
    (w w' : W) (inputs : list db_BuildInput) (rts : db_ResourceTypes)
    (config : atc_JobConfig) (plan : atc_Plan) : Prop :=
  exists w1 w2 w3 w4 w5 w6 w7 w8,
    IsAborted (embedded b) w = (false, w1)
    /\ CheckPaused pipeline w1 = ((false, None), w2)
    /\ Paused job w2 = (false, w3)
    /\ ScheduleBuild job (embedded b) w3 = ((true, None), w4)
    /\ IsReadyToDetermineInputs b (Session logger "try-start-next-pending-build") w4
       = (true, w5)
    /\ BuildInputs b w5 = ((inputs, true, None), w6)
    /\ ResourceTypes pipeline w6 = ((rts, None), w7)
    /\ Config job w7 = ((config, None), w8)
    /\ Create (factory s) config (resourceConfigsOf resources) (Deserialize rts) inputs w8
       = ((plan, None), w').

(** Modelled from the spec: the method [IsReadyToDetermineInputs] of the
    three variants, which is declared outside this file.  A re-run build is
    always ready, and finding so has no effect; for a normal or a manually
    triggered build, readiness is what the version-resolution algorithm, an
    external service, [reports]. *)
Definition specIsReadyToDetermineInputs
    (reports : Build -> lager_Logger -> W -> bool * W)
    (b : Build) (logger : lager_Logger) (w : W) : bool * W :=
  match b with
  | rerunBuild _ => (true, w)
  | _ => reports b logger w
  end.

End Scheduler.

(** ** The outcome of a tick *)

(** What [TryStartPendingBuildsForJob] returns once the loop is over. *)
Definition tickResult (x : (bool * option error) + unit) : bool * option error :=
  match x with
  | inl r => r
  | inr _ => (false, None)
  end.

(** ** Test doubles

    An in-memory storage and scripted collaborators, in the manner of the
    package's counterfeiter fakes.  They give the concrete runs below. *)
Module Fake.

Record Store : Type := {
  finishedAs : list (Z * BuildStatus);
  startedIDs : list Z;
  claimedIDs : list Z;
  buildsStarted : nat
}.

Definition empty : Store :=
  {| finishedAs := []; startedIDs := []; claimedIDs := []; buildsStarted := 0%nat |}.

Definition recordFinish (id : Z) (status : BuildStatus) (w : Store) : Store :=
  {| finishedAs := finishedAs w ++ [(id, status)]; startedIDs := startedIDs w;
     claimedIDs := claimedIDs w; buildsStarted := buildsStarted w |}.

Definition recordStart (id : Z) (w : Store) : Store :=
  {| finishedAs := finishedAs w; startedIDs := startedIDs w ++ [id];
     claimedIDs := claimedIDs w; buildsStarted := buildsStarted w |}.

Definition recordClaim (id : Z) (w : Store) : Store :=
  {| finishedAs := finishedAs w; startedIDs := startedIDs w;
     claimedIDs := claimedIDs w ++ [id]; buildsStarted := buildsStarted w |}.

Definition inc (w : Store) : Store :=
  {| finishedAs := finishedAs w; startedIDs := startedIDs w;
     claimedIDs := claimedIDs w; buildsStarted := S (buildsStarted w) |}.

Definition DBBuild : Type := @db_Build Store unit.
Definition Job : Type := @db_Job Store unit unit.
Definition Pipeline : Type := @db_Pipeline Store unit.
Definition SchedulerBuild : Type := @Build Store unit unit unit unit unit unit.
Definition Resources : Type := @db_Resources unit.
Definition Starter : Type := @buildStarter Store unit unit unit unit unit unit.

(** A build with the given identity and abort flag; every write to it fails
    with [finishErr] when that is set. *)
Definition build (id : Z) (manual : bool) (rerunOf : Z) (abortFlag : bool)
    (finishErr : option error) : DBBuild :=
  {| ID := id; Name := "build"; IsManuallyTriggered := manual; RerunOf := rerunOf;
     IsAborted := fun w => (abortFlag, w);
     Finish := fun status w =>
       match finishErr with
       | Some e => (Some e, w)
       | None => (None, recordFinish id status w)
       end;
     Start := fun _ w => ((true, None), recordStart id w) |}.

(** A job with the given pending builds and pause flag; [lost] lists the
    builds whose scheduling claim goes to another dispatcher. *)
Definition job (pending : list DBBuild) (pendingErr : option error)
    (paused : bool) (lost : list Z) : Job :=
  {| GetPendingBuilds := fun w => ((pending, pendingErr), w);
     Paused := fun w => (paused, w);
     ScheduleBuild := fun b w =>
       if existsb (Z.eqb (ID b)) lost then ((false, None), w)
       else ((true, None), recordClaim (ID b) w);
     Config := fun w => ((tt, None), w) |}.

Definition pipeline (paused : bool) (pausedErr : option error) : Pipeline :=
  {| CheckPaused := fun w => ((paused, pausedErr), w);
     ResourceTypes := fun w => ((tt, None), w) |}.

(** A plan compiler that fails with [compileErr] when that is set. *)
Definition starter (compileErr : option error) : Starter :=
  {| factory := {| Create := fun _ _ _ _ w => ((tt, compileErr), w) |};
     algorithm := tt |}.

(** Readiness: the builds listed in [notReady] cannot determine inputs yet. *)
Definition isReady (notReady : list Z) (b : SchedulerBuild) (_ : lager_Logger)
    (w : Store) : bool * Store :=
  (negb (existsb (Z.eqb (ID (embedded b))) notReady), w).

(** Input resolution: unsatisfiable for the builds listed in [notFound]. *)
Definition buildInputs (notFound : list Z) (b : SchedulerBuild) (w : Store)
    : (list unit * bool * option error) * Store :=
  (([], negb (existsb (Z.eqb (ID (embedded b))) notFound), None), w).

Definition deserialize (rt : unit) : unit := rt.

Definition logger : lager_Logger := ["scheduler"%string].

(** The per-build procedure and the dispatch loop over the fakes. *)
Definition tryStart (notReady notFound : list Z) :=
  tryStartNextPendingBuild deserialize (isReady notReady) (buildInputs notFound) inc.

Definition dispatch (notReady notFound : list Z) (needsRetry : startResults -> bool) :=
  TryStartPendingBuildsForJob deserialize (isReady notReady) (buildInputs notFound) inc
    needsRetry.

Definition dispatchOne (notReady notFound : list Z) (needsRetry : startResults -> bool) :=
  dispatchBuild deserialize (isReady notReady) (buildInputs notFound) inc needsRetry.

(** Builds used in the concrete runs. *)
Definition normal1 : DBBuild := build 1 false 0 false None.
Definition rerun2 : DBBuild := build 2 false 1 false None.
Definition normal3 : DBBuild := build 3 false 0 false None.
Definition aborted4 : DBBuild := build 4 false 0 true None.
Definition aborted5 : DBBuild :=
  build 5 false 0 true (Some (ErrCollaborator "storage unreachable")).

Definition session : lager_Logger := Session logger "try-start-next-pending-build".

(** The calls that finish build 4 as aborted, and the storage afterwards. *)
Definition finishing4 : @trace unit unit unit unit unit :=
  [EIsAborted 4; ELogDebug session "cancel-aborted-pending-build";
   EFinish 4 BuildStatusAborted].

Definition finished4 : Store := recordFinish 4 BuildStatusAborted empty.

(** The calls that start build 1, and the storage afterwards. *)
Definition starting1 : @trace unit unit unit unit unit :=
  [EIsAborted 1; ECheckPaused; EPaused; EScheduleBuild 1;
   EIsReadyToDetermineInputs 1; EBuildInputs 1; EResourceTypes; EConfig;
   ECreate tt [] tt []; EStart 1 tt; EBuildsStartedInc].

Definition started1 : Store := inc (recordStart 1 (recordClaim 1 empty)).

(** A build aborted between the claim and the start: its abort flag still
    reads false, and [Start] reports that it did not start. *)
Definition lateAborted7 : DBBuild :=
  {| ID := 7; Name := "build"; IsManuallyTriggered := false; RerunOf := 0;
     IsAborted := fun w => (false, w);
     Finish := fun status w => (None, recordFinish 7 status w);
     Start := fun _ w => ((false, None), w) |}.

(** A manually triggered build that is also a re-run. *)
Definition manualRerun8 : DBBuild := build 8 true 1 false None.

(** A build whose [Start] write fails. *)
Definition unstartable9 : DBBuild :=
  {| ID := 9; Name := "build"; IsManuallyTriggered := false; RerunOf := 0;
     IsAborted := fun w => (false, w);
     Finish := fun status w => (None, recordFinish 9 status w);
     Start := fun _ w => ((false, Some (ErrCollaborator "storage unreachable")), w) |}.

(** Jobs used in the further concrete runs. *)
Definition jobThree : Job := job [aborted4; normal1; normal3] None false [].
Definition jobTwo : Job := job [aborted4; normal1] None false [].
Definition jobLate : Job := job [aborted4; lateAborted7] None false [].
Definition jobUnstartable : Job := job [normal1; unstartable9; normal3] None false [].
Definition jobPaused : Job := job [aborted4; normal1; normal3] None true [].
Definition jobMixed : Job := job [manualRerun8; rerun2; normal1] None false [].

(** The calls that reach [Start] on a build whose plan compiles. *)
Definition reachingStart (id : Z) : @trace unit unit unit unit unit :=
  [EIsAborted id; ECheckPaused; EPaused; EScheduleBuild id;
   EIsReadyToDetermineInputs id; EBuildInputs id; EResourceTypes; EConfig;
   ECreate tt [] tt []; EStart id tt].

(** A build that is not aborted and whose [Finish] write fails. *)
Definition unfinishable10 : DBBuild :=
  build 10 false 0 false (Some (ErrCollaborator "storage unreachable")).


Definition tryStartSpec (notReady notFound : list Z) :=
  tryStartNextPendingBuild deserialize
    (specIsReadyToDetermineInputs (isReady notReady)) (buildInputs notFound) inc.


End Fake.

(** * Task config sources (package exec)

    The second part of the file: the sources a task step's [atc.TaskConfig]
    is fetched from.  A [TaskConfigSource] is an interface value, a record of
    its two methods; the repository of artifact sources, the streams and the
    writer of warnings are interface values as well, acting on a world [W],
    and the calls made on them are recorded in a trace. *)
Module Exec.

(** The errors of this part: the two declared at lines 481-501, a
    collaborator's error with its [Error()] text, and one made by
    [fmt.Errorf] with its formatted text. *)
Inductive error : Type :=
| UnknownArtifactSourceError (SourceName : string)
| UnspecifiedArtifactSourceError (Path : string)
| CollaboratorError (text : string)
| fmt_Errorf (text : string).

(** The [Error()] methods (lines 487-490 and 498-501). *)
Definition Error_ (err : error) : string :=
  match err with
  | UnknownArtifactSourceError name => "unknown artifact source: " ++ name
  | UnspecifiedArtifactSourceError path =>
      "config path '" ++ path ++ "' does not specify where the file lives"
  | CollaboratorError text => text
  | fmt_Errorf text => text
  end%string.

(** *** Strings *)

(** The first occurrence of the byte [sep] in [s]: what is before it and
    what is after it. *)
Fixpoint cut (sep : Ascii.ascii) (s : string) : option (string * string) :=
  match s with
  | EmptyString => None
  | String c rest =>
      if Ascii.eqb c sep then Some (EmptyString, rest)
      else match cut sep rest with
           | Some (before, after) => Some (String c before, after)
           | None => None
           end
  end.

(** [strings.SplitN(s, sep, 2)] for a one-byte separator: at most two
    pieces, cut at the first occurrence of the separator. *)
Definition strings_SplitN_2 (s : string) (sep : Ascii.ascii) : list string :=
  match cut sep s with
  | Some (before, after) => [before; after]
  | None => [s]
  end.

(** Whether the byte [c] occurs in [s]. *)
Fixpoint occurs (c : Ascii.ascii) (s : string) : bool :=
  match s with
  | EmptyString => false
  | String c' rest => Ascii.eqb c' c || occurs c rest
  end.

(** *** Maps from strings to strings *)

(** A [map[string]string], as the list of its entries. *)
Definition ParamMap : Type := list (string * string).

(** [m[k]] *)
Fixpoint get (k : string) (m : ParamMap) : option string :=
  match m with
  | [] => None
  | (k', v) :: rest => if String.eqb k' k then Some v else get k rest
  end.

(** [m[k] = v] *)
Fixpoint set (k v : string) (m : ParamMap) : ParamMap :=
  match m with
  | [] => [(k, v)]
  | (k', v') :: rest =>
      if String.eqb k' k then (k', v) :: rest else (k', v') :: set k v rest
  end.

Section ConfigSources.

(** The world the collaborators act on. *)
Context {W : Type}.

(** The fields of [atc.TaskConfig] other than [Params], and the values of
    [atc.Params] that are not strings. *)
Context {OtherFields Data : Type}.

(** The zero value of the other fields. *)
Variable zeroFields : OtherFields.

(** [atc.TaskConfig]; [Params] is nil or a map. *)
Record atc_TaskConfig : Type := {
  Params : option ParamMap;
  Fields : OtherFields
}.

(** [atc.TaskConfig{}] *)
Definition TaskConfig_zero : atc_TaskConfig :=
  {| Params := None; Fields := zeroFields |}.

(** A value of type [interface{}] in [atc.Params]. *)
Inductive ParamValue : Type :=
| StringValue (data : string)
| OtherValue (data : Data).

(** [atc.TaskPlan], as far as this file reads it.  [Config] is a pointer;
    [Plan_Params] lists the entries of the [Params] map in the order the
    [range] statement of line 311 visits them. *)
Record atc_TaskPlan : Type := {
  Config : option atc_TaskConfig;
  Plan_Params : list (string * ParamValue);
  ConfigPath : string
}.

(** Functions of other packages. *)
Variable json_Marshal : Data -> string * option error.
Variable LoadTaskConfig : string -> atc_TaskConfig * option error.
Variable Merge : atc_TaskConfig -> atc_TaskConfig -> atc_TaskConfig.
Variable Validate : atc_TaskConfig -> option error.

(** *** Interfaces *)

(** [io.ReadCloser], read through [ioutil.ReadAll]. *)
Record io_ReadCloser : Type := {
  ReadAll : W -> (string * option error) * W;
  Close : W -> W
}.

(** [ArtifactSource] *)
Record ArtifactSource : Type := {
  StreamFile : string -> W -> (io_ReadCloser * option error) * W
}.

(** [SourceRepository]; [SourceFor] answers a source when it finds one. *)
Record SourceRepository : Type := {
  SourceFor : string -> W -> option ArtifactSource * W
}.

(** [io.Writer] *)
Record io_Writer : Type := {
  Write : string -> W -> W
}.

Inductive event : Type :=
| ESourceFor (sourceName : string)
| EStreamFile (filePath : string)
| EReadAll
| EClose
| EWrite (bytes : string).

Definition FetchResult : Type := (atc_TaskConfig * option error) * W * list event.

(** [TaskConfigSource] (lines 293-298) *)
Record TaskConfigSource : Type := {
  FetchConfig : SourceRepository -> W -> FetchResult;
  Warnings : list string
}.

(** *** [StaticConfigSource] (lines 300-340) *)

(** [toString] (lines 323-331) *)
Definition toString (obj : ParamValue) : string * option error :=
  match obj with
  | StringValue data => (data, None)
  | OtherValue data => json_Marshal data
  end.

(** The loop of lines 311-318 on the map [params]: the map as the loop
    leaves it, and the error it returns with, if any. *)
Fixpoint setParams (entries : list (string * ParamValue)) (params : ParamMap)
    : ParamMap * option error :=
  match entries with
  | [] => (params, None)
  | (key, val) :: rest =>
      let '(strVal, err) := toString val in
      match err with
      | Some e => (params, Some e)
      | None => setParams rest (set key strVal params)
      end
  end.

(** [StaticConfigSource.FetchConfig] (lines 306-321).  [None] is the panic
    of dereferencing a nil [Plan.Config].  The map written by the loop is the
    plan's own [Config.Params] when that is not nil, so the plan is returned
    as the call leaves it. *)
Definition Static_FetchConfig (plan : atc_TaskPlan)
    : option ((atc_TaskConfig * option error) * atc_TaskPlan) :=
  match Config plan with
  | None => None
  | Some config =>
      let fresh := match Params config with None => true | Some _ => false end in
      let params := match Params config with None => [] | Some m => m end in
      let '(params', err) := setParams (Plan_Params plan) params in
      let plan' :=
        if fresh then plan
        else {| Config := Some {| Params := Some params'; Fields := Fields config |};
                Plan_Params := Plan_Params plan;
                ConfigPath := ConfigPath plan |} in
      match err with
      | Some e => Some ((TaskConfig_zero, Some e), plan')
      | None => Some (({| Params := Some params'; Fields := Fields config |}, None),
                      plan')
      end
  end.

Definition deprecationWarning : string :=
  String (Ascii.ascii_of_nat 27)
    ("[31mDEPRECATION WARNING: Specifying both `file` and `config.params` in a task step is deprecated, use params on task step directly"
     ++ String (Ascii.ascii_of_nat 27) "[0m")%string.

(** [StaticConfigSource.Warnings] (lines 333-340) *)
Definition Static_Warnings (plan : atc_TaskPlan) : list string :=
  let warnings := [] in
  if negb (String.eqb (ConfigPath plan) "")
     && match Config plan with Some _ => true | None => false end
  then warnings ++ [deprecationWarning]
  else warnings.

(** *** [FileConfigSource] (lines 366-423) *)

(** [FileConfigSource.FetchConfig]: [stream.Close()] is deferred from line
    406 on, and runs last on each of the later returns. *)
Definition File_FetchConfig (Path : string) (repo : SourceRepository) (w : W)
    : FetchResult :=
  let segs := strings_SplitN_2 Path "/"%char in
  if negb (Nat.eqb (List.length segs) 2) then
    ((TaskConfig_zero, Some (UnspecifiedArtifactSourceError Path)), w, [])
  else
    let sourceName := nth 0 segs EmptyString in
    let filePath := nth 1 segs EmptyString in
    let '(found, w1) := SourceFor repo sourceName w in
    match found with
    | None =>
        ((TaskConfig_zero, Some (UnknownArtifactSourceError sourceName)), w1,
         [ESourceFor sourceName])
    | Some source =>
        let '((stream, err), w2) := StreamFile source filePath w1 in
        match err with
        | Some e =>
            ((TaskConfig_zero, Some e), w2,
             [ESourceFor sourceName; EStreamFile filePath])
        | None =>
            let '((streamedFile, err), w3) := ReadAll stream w2 in
            match err with
            | Some e =>
                ((TaskConfig_zero, Some e), Close stream w3,
                 [ESourceFor sourceName; EStreamFile filePath; EReadAll; EClose])
            | None =>
                let '(config, err) := LoadTaskConfig streamedFile in
                match err with
                | Some e =>
                    ((TaskConfig_zero,
                      Some (fmt_Errorf
                              ("failed to load " ++ Path ++ ": " ++ Error_ e)%string)),
                     Close stream w3,
                     [ESourceFor sourceName; EStreamFile filePath; EReadAll; EClose])
                | None =>
                    ((config, None), Close stream w3,
                     [ESourceFor sourceName; EStreamFile filePath; EReadAll; EClose])
                end
            end
        end
    end.

Definition FileConfigSource (Path : string) : TaskConfigSource :=
  {| FetchConfig := File_FetchConfig Path; Warnings := [] |}.

(** *** [MergedConfigSource] (lines 425-454) *)

Definition Merged_FetchConfig (A B : TaskConfigSource) (source : SourceRepository)
    (w : W) : FetchResult :=
  let '((aConfig, err), w1, t1) := FetchConfig A source w in
  match err with
  | Some e => ((TaskConfig_zero, Some e), w1, t1)
  | None =>
      let '((bConfig, err), w2, t2) := FetchConfig B source w1 in
      match err with
      | Some e => ((TaskConfig_zero, Some e), w2, t1 ++ t2)
      | None => ((Merge aConfig bConfig, None), w2, t1 ++ t2)
      end
  end.

Definition MergedConfigSource (A B : TaskConfigSource) : TaskConfigSource :=
  {| FetchConfig := Merged_FetchConfig A B;
     Warnings := ([] ++ Warnings A) ++ Warnings B |}.

(** *** [ValidatingConfigSource] (lines 456-479) *)

Definition Validating_FetchConfig (ConfigSource : TaskConfigSource)
    (source : SourceRepository) (w : W) : FetchResult :=
  let '((config, err), w1, t1) := FetchConfig ConfigSource source w in
  match err with
  | Some e => ((TaskConfig_zero, Some e), w1, t1)
  | None =>
      match Validate config with
      | Some e => ((TaskConfig_zero, Some e), w1, t1)
      | None => ((config, None), w1, t1)
      end
  end.

Definition ValidatingConfigSource (ConfigSource : TaskConfigSource)
    : TaskConfigSource :=
  {| FetchConfig := Validating_FetchConfig ConfigSource;
     Warnings := Warnings ConfigSource |}.

(** *** [DeprecationConfigSource] (lines 342-364) *)

(** [fmt.Fprintln(Stderr, warning)]: one write of the line. *)
Definition Fprintln (Stderr : io_Writer) (warning : string) (w : W) : W * list event :=
  let line := (warning ++ String (Ascii.ascii_of_nat 10) EmptyString)%string in
  (Write Stderr line w, [EWrite line]).

(** The loop of lines 355-357. *)
Fixpoint printWarnings (Stderr : io_Writer) (warnings : list string) (w : W)
    : W * list event :=
  match warnings with
  | [] => (w, [])
  | warning :: rest =>
      let '(w1, t1) := Fprintln Stderr warning w in
      let '(w2, t2) := printWarnings Stderr rest w1 in
      (w2, t1 ++ t2)
  end.

Definition Deprecation_FetchConfig (Delegate : TaskConfigSource) (Stderr : io_Writer)
    (repo : SourceRepository) (w : W) : FetchResult :=
  let '((taskConfig, err), w1, t1) := FetchConfig Delegate repo w in
  match err with
  | Some e => ((TaskConfig_zero, Some e), w1, t1)
  | None =>
      let '(w2, t2) := printWarnings Stderr (Warnings Delegate) w1 in
      ((taskConfig, None), w2, t1 ++ t2)
  end.

Definition DeprecationConfigSource (Delegate : TaskConfigSource) (Stderr : io_Writer)
    : TaskConfigSource :=
  {| FetchConfig := Deprecation_FetchConfig Delegate Stderr; Warnings := [] |}.

(** The lines written, in order. *)
Definition written (t : list event) : list string :=
  flat_map (fun e => match e with EWrite line => [line] | _ => [] end) t.

(** The entry of [key] among the entries of a plan's [Params]. *)
Fixpoint entry (key : string) (entries : list (string * ParamValue))
    : option ParamValue :=
  match entries with
  | [] => None
  | (key', val) :: rest => if String.eqb key' key then Some val else entry key rest
  end.

End ConfigSources.

End Exec.

(** ** Test doubles for the task config sources *)
Module ExecFake.

(** The world: the lines written to the warnings writer and the number of
    streams closed. *)
Definition World : Type := (list string * nat)%type.

Definition TaskConfig : Type := @Exec.atc_TaskConfig unit.
Definition TaskPlan : Type := @Exec.atc_TaskPlan unit nat.
Definition Source : Type := @Exec.TaskConfigSource World unit.

(** [json.Marshal] on the numbers that stand for the values that are not
    strings: it fails on 0. *)
Definition marshal (data : nat) : string * option Exec.error :=
  match data with
  | O => (EmptyString, Some (Exec.CollaboratorError "unsupported value"))
  | S _ => ("42"%string, None)
  end.

(** A loader that refuses the empty file. *)
Definition load (bytes : string) : TaskConfig * option Exec.error :=
  match bytes with
  | EmptyString =>
      ({| Exec.Params := None; Exec.Fields := tt |},
       Some (Exec.CollaboratorError "empty task config"))
  | _ => ({| Exec.Params := Some [("FILE"%string, bytes)]; Exec.Fields := tt |}, None)
  end.

Definition paramsOf (c : TaskConfig) : Exec.ParamMap :=
  match Exec.Params c with Some m => m | None => [] end.

(** A merge that puts the entries of both configs together. *)
Definition merge (a b : TaskConfig) : TaskConfig :=
  {| Exec.Params := Some (paramsOf a ++ paramsOf b); Exec.Fields := tt |}.

Definition stream (content : string) (err : option Exec.error)
    : @Exec.io_ReadCloser World :=
  {| Exec.ReadAll := fun w => ((content, err), w);
     Exec.Close := fun w => (fst w, S (snd w)) |}.

(** A repository with the one source "repo", which holds the files
    "task.yml", "empty.yml" and "broken.yml", the last one failing when
    read. *)
Definition repo : @Exec.SourceRepository World :=
  {| Exec.SourceFor := fun name w =>
       if String.eqb name "repo"
       then (Some {| Exec.StreamFile := fun path w =>
                       if String.eqb path "task.yml"
                       then ((stream "platform: linux" None, None), w)
                       else if String.eqb path "empty.yml"
                       then ((stream "" None, None), w)
                       else if String.eqb path "broken.yml"
                       then ((stream "" (Some (Exec.CollaboratorError "read failed")),
                              None), w)
                       else ((stream "" None,
                              Some (Exec.CollaboratorError "file not found")), w) |}, w)
       else (None, w) |}.

Definition stderr : @Exec.io_Writer World :=
  {| Exec.Write := fun line w => (fst w ++ [line], snd w) |}.

Definition start : World := ([], 0%nat).

(** A source that answers a fixed config, or fails, and has the given
    warnings. *)
Definition fixed (params : Exec.ParamMap) (err : option Exec.error)
    (warnings : list string) : Source :=
  {| Exec.FetchConfig := fun _ w =>
       (({| Exec.Params := Some params; Exec.Fields := tt |}, err), w, []);
     Exec.Warnings := warnings |}.

(** A plan with an inline config and params of its own. *)
Definition plan : TaskPlan :=
  {| Exec.Config :=
       Some {| Exec.Params := Some [("A", "1"); ("B", "2")]%string; Exec.Fields := tt |};
     Exec.Plan_Params :=
       [("B", Exec.StringValue "3"); ("C", Exec.OtherValue 5%nat)]%string;
     Exec.ConfigPath := "repo/task.yml" |}.

(** The plan after a fetch. *)
Definition planAfter : TaskPlan :=
  {| Exec.Config :=
       Some {| Exec.Params := Some [("A", "1"); ("B", "3"); ("C", "42")]%string;
               Exec.Fields := tt |};
     Exec.Plan_Params :=
       [("B", Exec.StringValue "3"); ("C", Exec.OtherValue 5%nat)]%string;
     Exec.ConfigPath := "repo/task.yml" |}.

(** A plan one of whose values cannot be converted. *)
Definition badPlan : TaskPlan :=
  {| Exec.Config := Some {| Exec.Params := None; Exec.Fields := tt |};
     Exec.Plan_Params :=
       [("B", Exec.StringValue "3"); ("C", Exec.OtherValue 0%nat);
        ("D", Exec.StringValue "4")]%string;
     Exec.ConfigPath := "" |}.

(** The plan of [plan] with its params visited in the other order. *)
Definition planReversed : TaskPlan :=
  {| Exec.Config := Exec.Config plan;
     Exec.Plan_Params :=
       [("C", Exec.OtherValue 5%nat); ("B", Exec.StringValue "3")]%string;
     Exec.ConfigPath := "repo/task.yml" |}.

End ExecFake.

(** * Properties *)

Section Properties.

Context {W : Type}.
Context {atc_JobInput atc_Source atc_JobConfig atc_VersionedResourceTypes
         atc_Plan db_BuildInput db_ResourceTypes Algorithm NameToIDMap : Type}.

Local Notation "'SchedulerBuild'" :=
  (@Build W atc_JobInput atc_Source atc_JobConfig atc_Plan Algorithm NameToIDMap).

Variable Deserialize : db_ResourceTypes -> atc_VersionedResourceTypes.
Variable IsReadyToDetermineInputs : SchedulerBuild -> lager_Logger -> W -> bool * W.
Variable BuildInputs :
  SchedulerBuild -> W -> (list db_BuildInput * bool * option error) * W.
Variable BuildsStarted_Inc : W -> W.
Variable needsRetry : startResults -> bool.

Local Notation "'tryStart'" :=
  (tryStartNextPendingBuild Deserialize IsReadyToDetermineInputs BuildInputs
     BuildsStarted_Inc).
Local Notation "'dispatchOne'" :=
  (dispatchBuild Deserialize IsReadyToDetermineInputs BuildInputs
     BuildsStarted_Inc needsRetry).
Local Notation "'TryStart'" :=
  (TryStartPendingBuildsForJob Deserialize IsReadyToDetermineInputs BuildInputs
     BuildsStarted_Inc needsRetry).

Variable s : @buildStarter W atc_Source atc_JobConfig atc_VersionedResourceTypes
               atc_Plan db_BuildInput Algorithm.
Variable logger : lager_Logger.
Variable pipeline : @db_Pipeline W db_ResourceTypes.
Variable job : @db_Job W atc_JobConfig atc_Plan.
Variable jobInputs : list atc_JobInput.
Variable resources : @db_Resources atc_Source.
Variable relatedJobs : NameToIDMap.

Local Notation "'wrap'" := (constructBuild s job jobInputs resources relatedJobs).

(** [constructBuilds] wraps the pending builds one by one, in order. *)
Lemma constructBuilds_map builds :
  constructBuilds s job jobInputs resources relatedJobs builds = map wrap builds.
Proof.
  unfold constructBuilds.
  enough (H : forall acc,
             fold_left (fun buildsToSchedule nextPendingBuild =>
                          buildsToSchedule ++ [wrap nextPendingBuild]) builds acc
             = acc ++ map wrap builds) by apply (H []).
  induction builds as [|d ds IH]; intros acc; simpl.
  - now rewrite app_nil_r.
  - rewrite IH, <- app_assoc. reflexivity.
Qed.


(** *** Stepping through a run

    A run is followed call by call: each hypothesis gives the answer of one
    collaborator in the world where it is asked. *)

Ltac enter :=
  unfold tryStartNextPendingBuild, func, bind, invoke, perform, call, when,
    Debug, Error, Return, ret; cbn [negb fst snd app].

(** Line 152-163, the finish write succeeding. *)
Lemma tryStart_aborted b w w1 w2 :
  IsAborted (embedded b) w = (true, w1) ->
  Finish (embedded b) BuildStatusAborted w1 = (None, w2) ->
  tryStart s logger pipeline b job resources w =
    ((mkStartResults true false false, None), w2,
     [EIsAborted (ID (embedded b));
      ELogDebug (Session logger "try-start-next-pending-build") "cancel-aborted-pending-build";
      EFinish (ID (embedded b)) BuildStatusAborted]).
Proof.
  intros H1 H2. enter. rewrite H1. cbn. rewrite H2. reflexivity.
Qed.


(** Line 155-158, the finish write failing. *)
Lemma tryStart_aborted_finish_fails b w w1 w2 e :
  IsAborted (embedded b) w = (true, w1) ->
  Finish (embedded b) BuildStatusAborted w1 = (Some e, w2) ->
  tryStart s logger pipeline b job resources w =
    ((startResults_zero, Some (fmt_Errorf_w "finish aborted build" e)), w2,
     [EIsAborted (ID (embedded b));
      ELogDebug (Session logger "try-start-next-pending-build") "cancel-aborted-pending-build";
      EFinish (ID (embedded b)) BuildStatusAborted]).
Proof.
  intros H1 H2. enter. rewrite H1. cbn. rewrite H2. reflexivity.
Qed.

(** Lines 165-173. *)
Lemma tryStart_pipeline_paused b w w1 w2 perr :
  IsAborted (embedded b) w = (false, w1) ->
  CheckPaused pipeline w1 = ((true, perr), w2) ->
  tryStart s logger pipeline b job resources w =
    ((startResults_zero,
      match perr with
      | Some e => Some (fmt_Errorf_w "check pipeline paused" e)
      | None => None
      end), w2,
     EIsAborted (ID (embedded b)) :: ECheckPaused ::
     match perr with
     | Some _ => []
     | None => [ELogDebug (Session logger "try-start-next-pending-build") "pipeline-paused"]
     end).
Proof.
  intros H1 H2. enter. rewrite H1. cbn. rewrite H2. destruct perr; reflexivity.
Qed.

(** Lines 165-168. *)
Lemma tryStart_check_paused_fails b w w1 w2 p e :
  IsAborted (embedded b) w = (false, w1) ->
  CheckPaused pipeline w1 = ((p, Some e), w2) ->
  tryStart s logger pipeline b job resources w =
    ((startResults_zero, Some (fmt_Errorf_w "check pipeline paused" e)), w2,
     [EIsAborted (ID (embedded b)); ECheckPaused]).
Proof.
  intros H1 H2. enter. rewrite H1. cbn. rewrite H2. reflexivity.
Qed.

(** Lines 175-178. *)
Lemma tryStart_job_paused b w w1 w2 w3 :
  IsAborted (embedded b) w = (false, w1) ->
  CheckPaused pipeline w1 = ((false, None), w2) ->
  Paused job w2 = (true, w3) ->
  tryStart s logger pipeline b job resources w =
    ((startResults_zero, None), w3,
     [EIsAborted (ID (embedded b)); ECheckPaused; EPaused;
      ELogDebug (Session logger "try-start-next-pending-build") "job-paused"]).
Proof.
  intros H1 H2 H3. enter. rewrite H1. cbn. rewrite H2. cbn. rewrite H3. reflexivity.
Qed.

(** Lines 180-190. *)
Lemma tryStart_claim_lost b w w1 w2 w3 w4 :
  IsAborted (embedded b) w = (false, w1) ->
  CheckPaused pipeline w1 = ((false, None), w2) ->
  Paused job w2 = (false, w3) ->
  ScheduleBuild job (embedded b) w3 = ((false, None), w4) ->
  tryStart s logger pipeline b job resources w =
    ((mkStartResults false false false, None), w4,
     [EIsAborted (ID (embedded b)); ECheckPaused; EPaused;
      EScheduleBuild (ID (embedded b));
      ELogDebug (Session logger "try-start-next-pending-build") "build-not-scheduled"]).
Proof.
  intros H1 H2 H3 H4. enter.
  rewrite H1. cbn. rewrite H2. cbn. rewrite H3. cbn. rewrite H4. reflexivity.
Qed.

(** Lines 192-202. *)
Lemma tryStart_not_ready b w w1 w2 w3 w4 w5 :
  IsAborted (embedded b) w = (false, w1) ->
  CheckPaused pipeline w1 = ((false, None), w2) ->
  Paused job w2 = (false, w3) ->
  ScheduleBuild job (embedded b) w3 = ((true, None), w4) ->
  IsReadyToDetermineInputs b (Session logger "try-start-next-pending-build") w4
    = (false, w5) ->
  tryStart s logger pipeline b job resources w =
    ((mkStartResults false true false, None), w5,
     [EIsAborted (ID (embedded b)); ECheckPaused; EPaused;
      EScheduleBuild (ID (embedded b));
      EIsReadyToDetermineInputs (ID (embedded b))]).
Proof.
  intros H1 H2 H3 H4 H5. enter.
  rewrite H1. cbn. rewrite H2. cbn. rewrite H3. cbn. rewrite H4. cbn.
  rewrite H5. reflexivity.
Qed.

(** Lines 204-218. *)
Lemma tryStart_inputs_not_found b w w1 w2 w3 w4 w5 w6 inputs :
  IsAborted (embedded b) w = (false, w1) ->
  CheckPaused pipeline w1 = ((false, None), w2) ->
  Paused job w2 = (false, w3) ->
  ScheduleBuild job (embedded b) w3 = ((true, None), w4) ->
  IsReadyToDetermineInputs b (Session logger "try-start-next-pending-build") w4
    = (true, w5) ->
  BuildInputs b w5 = ((inputs, false, None), w6) ->
  tryStart s logger pipeline b job resources w =
    ((mkStartResults false true true, None), w6,
     [EIsAborted (ID (embedded b)); ECheckPaused; EPaused;
      EScheduleBuild (ID (embedded b));
      EIsReadyToDetermineInputs (ID (embedded b));
      EBuildInputs (ID (embedded b));
      ELogDebug (Session logger "try-start-next-pending-build") "build-inputs-not-found"]).
Proof.
  intros H1 H2 H3 H4 H5 H6. enter.
  rewrite H1. cbn. rewrite H2. cbn. rewrite H3. cbn. rewrite H4. cbn.
  rewrite H5. cbn. rewrite H6. reflexivity.
Qed.

(** Lines 220-251. *)
Lemma tryStart_compile_fails b w w1 w2 w3 w4 w5 w6 w7 w8 w9 w10
    inputs rts config plan e ferr :
  IsAborted (embedded b) w = (false, w1) ->
  CheckPaused pipeline w1 = ((false, None), w2) ->
  Paused job w2 = (false, w3) ->
  ScheduleBuild job (embedded b) w3 = ((true, None), w4) ->
  IsReadyToDetermineInputs b (Session logger "try-start-next-pending-build") w4
    = (true, w5) ->
  BuildInputs b w5 = ((inputs, true, None), w6) ->
  ResourceTypes pipeline w6 = ((rts, None), w7) ->
  Config job w7 = ((config, None), w8) ->
  Create (factory s) config (resourceConfigsOf resources) (Deserialize rts) inputs w8
    = ((plan, Some e), w9) ->
  Finish (embedded b) BuildStatusErrored w9 = (ferr, w10) ->
  tryStart s logger pipeline b job resources w =
    ((startResults_zero,
      match ferr with
      | Some fe => Some (fmt_Errorf_w "finish build" fe)
      | None => None
      end), w10,
     compileFailureEvents Deserialize logger resources b config rts inputs e ++
     match ferr with
     | Some fe => [ELogError (Session logger "try-start-next-pending-build")
                     "failed-to-mark-build-as-errored" fe]
     | None => []
     end).
Proof.
  intros H1 H2 H3 H4 H5 H6 H7 H8 H9 H10. enter.
  rewrite H1. cbn. rewrite H2. cbn. rewrite H3. cbn. rewrite H4. cbn.
  rewrite H5. cbn. rewrite H6. cbn. rewrite H7. cbn. rewrite H8. cbn.
  rewrite H9. cbn. rewrite H10. destruct ferr; reflexivity.
Qed.


(** *** The shapes of a per-build result *)

Ltac split_calls :=
  repeat match goal with
         | |- context [negb ?c] => is_var c; destruct c; cbn
         | |- context [match ?x with _ => _ end] =>
             lazymatch x with
             | context [match _ with _ => _ end] => fail
             | _ => destruct x; cbn
             end
         end.

(** Every return statement of [tryStartNextPendingBuild] yields one of four
    records, and the zero record whenever it yields an error. *)
Lemma tryStart_results b w r err w' t :
  tryStart s logger pipeline b job resources w = ((r, err), w', t) ->
  (r = startResults_zero \/ r = mkStartResults true false false \/
   r = mkStartResults false true false \/ r = mkStartResults false true true)
  /\ (err <> None -> r = startResults_zero).
Proof.
  enter. split_calls; intros H; inversion H; subst; clear H.
  all: split; [auto | try congruence; auto].
Qed.

(** The first call of the procedure reads the abort flag. *)
Lemma tryStart_first_event b w :
  exists t', snd (tryStart s logger pipeline b job resources w)
             = EIsAborted (ID (embedded b)) :: t'.
Proof.
  enter. split_calls; eexists; reflexivity.
Qed.

Lemma embedded_wrap d : embedded (wrap d) = d.
Proof.
  unfold constructBuild.
  destruct (IsManuallyTriggered d); [reflexivity|].
  destruct (negb (RerunOf d =? 0)); reflexivity.
Qed.

(** *** One iteration of the loop (lines 85-101) *)

Lemma dispatchOne_error b w r e w' t :
  tryStart s logger pipeline b job resources w = ((r, Some e), w', t) ->
  dispatchOne s logger pipeline job resources b w = (inl (false, Some e), w', t).
Proof.
  intros H. unfold dispatchBuild, bind, call, Return, ret. rewrite H. cbn.
  now rewrite app_nil_r.
Qed.

Lemma dispatchOne_aborted b w r w' t :
  tryStart s logger pipeline b job resources w = ((r, None), w', t) ->
  aborted r = true ->
  dispatchOne s logger pipeline job resources b w = (inr tt, w', t).
Proof.
  intros H Ha. unfold dispatchBuild, bind, call, Return, ret. rewrite H. cbn.
  rewrite Ha. cbn. now rewrite app_nil_r.
Qed.

Lemma dispatchOne_stop b w r w' t :
  tryStart s logger pipeline b job resources w = ((r, None), w', t) ->
  aborted r = false ->
  notScheduledOrNotReady r = true ->
  dispatchOne s logger pipeline job resources b w = (inl (true, None), w', t).
Proof.
  intros H Ha Hg. unfold dispatchBuild, bind, call, when, Return, ret.
  rewrite H. cbn. rewrite Ha, Hg. cbn. now rewrite app_nil_r.
Qed.

Lemma dispatchOne_pass b w r w' t :
  tryStart s logger pipeline b job resources w = ((r, None), w', t) ->
  aborted r = false ->
  scheduled r = true ->
  readyToDetermineInputs r = true ->
  dispatchOne s logger pipeline job resources b w = (inr tt, w', t).
Proof.
  intros H Ha Hs Hr.
  unfold dispatchBuild, bind, call, when, Return, ret,
    notScheduledOrNotReady, scheduledNotReadyNotRerun.
  rewrite H. cbn. rewrite Ha, Hs, Hr. cbn. now rewrite app_nil_r.
Qed.

(** The trace of an iteration is the trace of the per-build procedure. *)
Lemma dispatchOne_trace b w :
  snd (dispatchOne s logger pipeline job resources b w)
  = snd (tryStart s logger pipeline b job resources w).
Proof.
  unfold dispatchBuild, bind, call, when, Return, ret.
  destruct (tryStart s logger pipeline b job resources w) as [[[r [e|]] w'] t]; cbn.
  - now rewrite app_nil_r.
  - destruct (aborted r); cbn; [now rewrite app_nil_r|].
    destruct (notScheduledOrNotReady r); cbn; [now rewrite app_nil_r|].
    destruct (scheduledNotReadyNotRerun r b); cbn; now rewrite app_nil_r.
Qed.

(** *** The loop *)

Section Loop.

Context {R A : Type}.
Variable body : A -> @M W atc_Source atc_JobConfig atc_VersionedResourceTypes
                       atc_Plan db_BuildInput R unit.

Lemma for_range_cons x rest w :
  for_range (x :: rest) body w =
    let '(y, w1, t1) := body x w in
    match y with
    | inl r => (inl r, w1, t1)
    | inr _ => let '(z, w2, t2) := for_range rest body w1 in (z, w2, t1 ++ t2)
    end.
Proof. reflexivity. Qed.

(** Once the loop has gone through [pre] without returning, it goes on with
    what follows, in the world it has reached. *)
Lemma for_range_through pre l w w1 t1 :
  for_range pre body w = (inr tt, w1, t1) ->
  for_range (pre ++ l) body w =
    let '(z, w2, t2) := for_range l body w1 in (z, w2, t1 ++ t2).
Proof.
  revert w t1.
  induction pre as [|x pre IH]; intros w t1 H.
  - cbn in H. inversion H; subst. cbn.
    destruct (for_range l body w1) as [[z w2] t2]. reflexivity.
  - rewrite <- app_comm_cons, for_range_cons.
    rewrite for_range_cons in H.
    destruct (body x w) as [[[r|[]] wa] ta]; [discriminate|].
    destruct (for_range pre body wa) as [[z wb] tb] eqn:E.
    inversion H; subst.
    rewrite (IH _ _ E).
    destruct (for_range l body w1) as [[z' w2] t2].
    now rewrite app_assoc.
Qed.

End Loop.


(** *** The whole tick *)

(** Lines 63-66. *)
Lemma TryStart_get_fails w pending e w0 :
  GetPendingBuilds job w = ((pending, Some e), w0) ->
  TryStart s logger pipeline job jobInputs resources relatedJobs w =
    ((false, Some (fmt_Errorf_w "get pending builds" e)), w0, [EGetPendingBuilds]).
Proof.
  intros H. unfold TryStartPendingBuildsForJob, func, bind, invoke, Return, ret.
  rewrite H. reflexivity.
Qed.

(** Lines 82-104. *)
Lemma TryStart_loop w pending w0 :
  GetPendingBuilds job w = ((pending, None), w0) ->
  TryStart s logger pipeline job jobInputs resources relatedJobs w =
    let '(x, w1, t) :=
      for_range (map wrap pending) (dispatchOne s logger pipeline job resources) w0 in
    (tickResult x, w1, EGetPendingBuilds :: t).
Proof.
  intros H. unfold TryStartPendingBuildsForJob, func, bind, invoke, Return, ret.
  rewrite H. cbn. rewrite constructBuilds_map.
  destruct (for_range _ _ w0) as [[[r|[]] w1] t]; cbn;
    now rewrite ?app_nil_r.
Qed.

(** The loop returns at the build in position [length dpre]. *)
Lemma TryStart_returns_at w dpre d drest w0 w1 t1 r w2 t2 :
  GetPendingBuilds job w = ((dpre ++ d :: drest, None), w0) ->
  for_range (map wrap dpre) (dispatchOne s logger pipeline job resources) w0
    = (inr tt, w1, t1) ->
  dispatchOne s logger pipeline job resources (wrap d) w1 = (inl r, w2, t2) ->
  TryStart s logger pipeline job jobInputs resources relatedJobs w =
    (r, w2, EGetPendingBuilds :: t1 ++ t2).
Proof.
  intros Hget Hpre Hd.
  rewrite (TryStart_loop _ _ _ Hget), map_app, (for_range_through _ _ _ _ _ _ Hpre).
  cbn [map]. rewrite for_range_cons, Hd. reflexivity.
Qed.

(** The loop goes past the build in position [length dpre]. *)
Lemma TryStart_goes_past w dpre d drest w0 w1 t1 w2 t2 :
  GetPendingBuilds job w = ((dpre ++ d :: drest, None), w0) ->
  for_range (map wrap dpre) (dispatchOne s logger pipeline job resources) w0
    = (inr tt, w1, t1) ->
  dispatchOne s logger pipeline job resources (wrap d) w1 = (inr tt, w2, t2) ->
  TryStart s logger pipeline job jobInputs resources relatedJobs w =
    let '(x, w3, t3) :=
      for_range (map wrap drest) (dispatchOne s logger pipeline job resources) w2 in
    (tickResult x, w3, EGetPendingBuilds :: t1 ++ t2 ++ t3).
Proof.
  intros Hget Hpre Hd.
  rewrite (TryStart_loop _ _ _ Hget), map_app, (for_range_through _ _ _ _ _ _ Hpre).
  cbn [map]. rewrite for_range_cons, Hd.
  destruct (for_range _ _ w2) as [[x w3] t3]. reflexivity.
Qed.

(** The loop, entered with a build at its head, first reads that build's
    abort flag. *)
Lemma for_range_reads_abort_flag d drest w :
  exists t',
    snd (for_range (map wrap (d :: drest)) (dispatchOne s logger pipeline job resources) w)
    = EIsAborted (ID d) :: t'.
Proof.
  cbn [map]. rewrite for_range_cons.
  pose proof (dispatchOne_trace (wrap d) w) as Ht.
  destruct (tryStart_first_event (wrap d) w) as [t' Hf].
  rewrite Hf, embedded_wrap in Ht.
  destruct (dispatchOne _ _ _ _ _ (wrap d) w) as [[[r|[]] w1] t1]; cbn in Ht; subst t1.
  - eexists; reflexivity.
  - destruct (for_range _ _ w1) as [[z w2] t2]. eexists; reflexivity.
Qed.


(** *** What line 100 could return never matters *)

(** Past the guard of line 94, the guard of line 98 is false. *)
Lemma guards_exclusive r (b : SchedulerBuild) :
  notScheduledOrNotReady r = false -> scheduledNotReadyNotRerun r b = false.
Proof.
  unfold notScheduledOrNotReady, scheduledNotReadyNotRerun.
  destruct (scheduled r), (readyToDetermineInputs r); cbn; congruence.
Qed.

Lemma dispatchBuild_needsRetry_irrelevant needsRetry' b w :
  dispatchBuild Deserialize IsReadyToDetermineInputs BuildInputs BuildsStarted_Inc
    needsRetry' s logger pipeline job resources b w
  = dispatchOne s logger pipeline job resources b w.
Proof.
  unfold dispatchBuild, bind, call, when, Return, ret.
  destruct (tryStart s logger pipeline b job resources w) as [[[r [e|]] w'] t];
    cbn; [reflexivity|].
  destruct (aborted r); [reflexivity|].
  destruct (notScheduledOrNotReady r) eqn:G; cbn; [reflexivity|].
  now rewrite (guards_exclusive r b G).
Qed.

Lemma for_range_ext {R A : Type}
    (f g : A -> @M W atc_Source atc_JobConfig atc_VersionedResourceTypes
                   atc_Plan db_BuildInput R unit) l w :
  (forall x w0, f x w0 = g x w0) ->
  for_range l f w = for_range l g w.
Proof.
  intros Hfg. revert w.
  induction l as [|x l IH]; intros w; [reflexivity|].
  rewrite !for_range_cons, Hfg.
  destruct (g x w) as [[[r|[]] w1] t1]; [reflexivity|].
  now rewrite IH.
Qed.

(** *** Errors and the retry signal *)

Lemma dispatchOne_error_no_retry b w retry e w' t :
  dispatchOne s logger pipeline job resources b w = (inl (retry, Some e), w', t) ->
  retry = false.
Proof.
  unfold dispatchBuild, bind, call, when, Return, ret.
  destruct (tryStart s logger pipeline b job resources w) as [[[r [e0|]] w1] t1]; cbn.
  - intros H. now inversion H.
  - destruct (aborted r); cbn; [discriminate|].
    destruct (notScheduledOrNotReady r); cbn; [discriminate|].
    destruct (scheduledNotReadyNotRerun r b); cbn; discriminate.
Qed.

Lemma for_range_error_no_retry l w retry e w' t :
  for_range l (dispatchOne s logger pipeline job resources) w
    = (inl (retry, Some e), w', t) ->
  retry = false.
Proof.
  revert w t.
  induction l as [|b l IH]; intros w t; [discriminate|].
  rewrite for_range_cons.
  destruct (dispatchOne s logger pipeline job resources b w)
    as [[[[r0 e0]|[]] w1] t1] eqn:E.
  - intros H. inversion H; subst.
    exact (dispatchOne_error_no_retry _ _ _ _ _ _ E).
  - destruct (for_range l _ w1) as [[z w2] t2] eqn:El.
    intros H. inversion H; subst.
    exact (IH _ _ El).
Qed.

(** ** The claims

    In the statements about the whole tick, the pending builds are
    [dpre ++ d :: drest] and the hypothesis
    [for_range (map wrap dpre) ... w0 = (inr tt, w1, t1)] says that the loop
    has gone through the builds before [d] without returning, reaching the
    world [w1] with the trace [t1]. *)

(** C10, amended.  The abort check comes before the pause checks: whatever
    the pause flags are, a pending build whose abort flag is set is handed to
    [Finish] with status aborted right after the flag is read, and neither a
    pause flag nor the scheduling claim is consulted for it.  The result is
    [{aborted: true}] with a nil error, unless the finish write itself fails:
    then it is the zero result with the error wrapped as
    "finish aborted build". *)
Theorem abort_precedes_pause b w w1 w2 ferr :
  IsAborted (embedded b) w = (true, w1) ->
  Finish (embedded b) BuildStatusAborted w1 = (ferr, w2) ->
  let '((r, err), w', t) := tryStart s logger pipeline b job resources w in
  t = [EIsAborted (ID (embedded b));
       ELogDebug (Session logger "try-start-next-pending-build")
         "cancel-aborted-pending-build";
       EFinish (ID (embedded b)) BuildStatusAborted]
  /\ filter is_pause_check t = []
  /\ filter is_claim t = []
  /\ w' = w2
  /\ match ferr with
     | None => r = mkStartResults true false false /\ err = None
     | Some e =>
         r = startResults_zero
         /\ err = Some (fmt_Errorf_w "finish aborted build" e)
     end.
Proof.
  intros Ha Hf. destruct ferr as [e|].
  - rewrite (tryStart_aborted_finish_fails _ _ _ _ _ Ha Hf). repeat split.
  - rewrite (tryStart_aborted _ _ _ _ Ha Hf). repeat split.
Qed.

(** C5.  For a pending build that is not aborted, when the pipeline is
    paused or the job is paused the procedure returns the zero result, makes
    no scheduling claim and writes no build status; the error is nil unless
    the pipeline's pause check itself failed. *)
Theorem paused_no_claim_no_write b w w1 w2 w3 pipelinePaused perr jobPaused :
  IsAborted (embedded b) w = (false, w1) ->
  CheckPaused pipeline w1 = ((pipelinePaused, perr), w2) ->
  Paused job w2 = (jobPaused, w3) ->
  pipelinePaused = true \/ jobPaused = true ->
  let '((r, err), w', t) := tryStart s logger pipeline b job resources w in
  r = startResults_zero
  /\ filter is_claim t = []
  /\ filter is_status_write t = []
  /\ (perr = None -> err = None).
Proof.
  intros Ha Hp Hj Hor.
  destruct perr as [e|].
  - rewrite (tryStart_check_paused_fails _ _ _ _ _ _ Ha Hp).
    repeat split; discriminate.
  - destruct pipelinePaused.
    + rewrite (tryStart_pipeline_paused _ _ _ _ _ Ha Hp). repeat split.
    + destruct Hor as [Hor|Hor]; [discriminate|subst jobPaused].
      rewrite (tryStart_job_paused _ _ _ _ _ Ha Hp Hj). repeat split.
Qed.

(** C4.  A pending build whose abort flag is set is finished with status
    aborted.  When the finish write succeeds the procedure returns
    [{aborted: true}] with a nil error and the loop goes on with the builds
    behind it, reading the abort flag of the next one; when the write fails
    the procedure returns the wrapped error. *)
Theorem aborted_build_does_not_block dpre d drest w w0 w1 t1 w2 w3 ferr :
  GetPendingBuilds job w = ((dpre ++ d :: drest, None), w0) ->
  for_range (map wrap dpre) (dispatchOne s logger pipeline job resources) w0
    = (inr tt, w1, t1) ->
  IsAborted d w1 = (true, w2) ->
  Finish d BuildStatusAborted w2 = (ferr, w3) ->
  let tb := [EIsAborted (ID d);
             ELogDebug (Session logger "try-start-next-pending-build")
               "cancel-aborted-pending-build";
             EFinish (ID d) BuildStatusAborted] in
  match ferr with
  | Some e =>
      tryStart s logger pipeline (wrap d) job resources w1 =
        ((startResults_zero, Some (fmt_Errorf_w "finish aborted build" e)), w3, tb)
      /\ TryStart s logger pipeline job jobInputs resources relatedJobs w =
           ((false, Some (fmt_Errorf_w "finish aborted build" e)), w3,
            EGetPendingBuilds :: t1 ++ tb)
  | None =>
      tryStart s logger pipeline (wrap d) job resources w1 =
        ((mkStartResults true false false, None), w3, tb)
      /\ TryStart s logger pipeline job jobInputs resources relatedJobs w =
           (let '(x, w4, t4) :=
              for_range (map wrap drest) (dispatchOne s logger pipeline job resources) w3 in
            (tickResult x, w4, EGetPendingBuilds :: t1 ++ tb ++ t4))
      /\ (forall d' drest', drest = d' :: drest' ->
          exists t',
            snd (TryStart s logger pipeline job jobInputs resources relatedJobs w)
            = EGetPendingBuilds :: t1 ++ tb ++ EIsAborted (ID d') :: t')
  end.
Proof.
  intros Hget Hpre Ha Hf tb.
  rewrite <- (embedded_wrap d) in Ha, Hf.
  destruct ferr as [e|].
  - pose proof (tryStart_aborted_finish_fails _ _ _ _ _ Ha Hf) as Hb.
    rewrite embedded_wrap in Hb. fold tb in Hb.
    split; [exact Hb|].
    exact (TryStart_returns_at _ _ _ _ _ _ _ _ _ _ Hget Hpre
             (dispatchOne_error _ _ _ _ _ _ Hb)).
  - pose proof (tryStart_aborted _ _ _ _ Ha Hf) as Hb.
    rewrite embedded_wrap in Hb. fold tb in Hb.
    pose proof (dispatchOne_aborted _ _ _ _ _ Hb eq_refl) as Hd.
    pose proof (TryStart_goes_past _ _ _ _ _ _ _ _ _ Hget Hpre Hd) as Hrun.
    split; [exact Hb|]. split; [exact Hrun|].
    intros d' drest' ->. rewrite Hrun.
    destruct (for_range_reads_abort_flag d' drest' w3) as [t' Ht'].
    destruct (for_range _ _ w3) as [[x w4] t4]. cbn in Ht'. subst t4.
    exists t'. reflexivity.
Qed.


(** C3.  When the only pending build of the job is a normal build (neither
    manually triggered nor a re-run) that is claimed but not ready to
    determine inputs, the tick claims it, neither starts nor finishes it,
    makes no further call, and returns needsRetry = true with a nil error. *)
Theorem single_normal_build_not_ready d w w0 w1 w2 w3 w4 w5 :
  IsManuallyTriggered d = false ->
  RerunOf d = 0 ->
  GetPendingBuilds job w = (([d], None), w0) ->
  IsAborted d w0 = (false, w1) ->
  CheckPaused pipeline w1 = ((false, None), w2) ->
  Paused job w2 = (false, w3) ->
  ScheduleBuild job d w3 = ((true, None), w4) ->
  IsReadyToDetermineInputs (schedulerBuild d)
    (Session logger "try-start-next-pending-build") w4 = (false, w5) ->
  let '((retry, err), w', t) :=
    TryStart s logger pipeline job jobInputs resources relatedJobs w in
  retry = true
  /\ err = None
  /\ w' = w5
  /\ t = [EGetPendingBuilds; EIsAborted (ID d); ECheckPaused; EPaused;
          EScheduleBuild (ID d); EIsReadyToDetermineInputs (ID d)]
  /\ filter is_status_write t = [].
Proof.
  intros Hm Hr Hget Ha Hp Hj Hs Hn.
  assert (Hw : wrap d = schedulerBuild d).
  { unfold constructBuild. now rewrite Hm, Hr. }
  change [d] with ([] ++ d :: []) in Hget.
  assert (Hb := tryStart_not_ready (schedulerBuild d) _ _ _ _ _ _ Ha Hp Hj Hs Hn).
  rewrite <- Hw in Hb.
  rewrite (TryStart_returns_at _ _ _ _ _ _ _ _ _ _ Hget eq_refl
             (dispatchOne_stop _ _ _ _ _ Hb eq_refl eq_refl)).
  rewrite Hw. repeat split.
Qed.

(** C6.  When the scheduling claim on the build in position
    [length dpre] is lost (not scheduled, no error), the procedure returns
    [{scheduled: false}] with a nil error and the tick ends there: its trace
    stops with that build's calls, whatever builds follow, and it returns no
    error. *)
Theorem lost_claim_stops_the_tick dpre d drest w w0 w1 t1 w2 w3 w4 w5 :
  GetPendingBuilds job w = ((dpre ++ d :: drest, None), w0) ->
  for_range (map wrap dpre) (dispatchOne s logger pipeline job resources) w0
    = (inr tt, w1, t1) ->
  IsAborted d w1 = (false, w2) ->
  CheckPaused pipeline w2 = ((false, None), w3) ->
  Paused job w3 = (false, w4) ->
  ScheduleBuild job d w4 = ((false, None), w5) ->
  let tb := [EIsAborted (ID d); ECheckPaused; EPaused; EScheduleBuild (ID d);
             ELogDebug (Session logger "try-start-next-pending-build")
               "build-not-scheduled"] in
  tryStart s logger pipeline (wrap d) job resources w1 =
    ((mkStartResults false false false, None), w5, tb)
  /\ TryStart s logger pipeline job jobInputs resources relatedJobs w =
       ((true, None), w5, EGetPendingBuilds :: t1 ++ tb).
Proof.
  intros Hget Hpre Ha Hp Hj Hs tb.
  rewrite <- (embedded_wrap d) in Ha, Hs.
  pose proof (tryStart_claim_lost _ _ _ _ _ _ Ha Hp Hj Hs) as Hb.
  rewrite embedded_wrap in Hb. fold tb in Hb.
  split; [exact Hb|].
  exact (TryStart_returns_at _ _ _ _ _ _ _ _ _ _ Hget Hpre
           (dispatchOne_stop _ _ _ _ _ Hb eq_refl eq_refl)).
Qed.

(** C7.  For a claimed, ready build whose input resolution reports "not
    found" without error, the procedure returns
    [{scheduled: true, readyToDetermineInputs: true}] with a nil error, never
    calls the plan compiler and writes no status; the loop goes on with the
    builds behind it, and when there is none the tick returns no error and
    no retry. *)
Theorem inputs_not_found_leaves_build_pending
    dpre d drest w w0 w1 t1 w2 w3 w4 w5 w6 w7 inputs :
  GetPendingBuilds job w = ((dpre ++ d :: drest, None), w0) ->
  for_range (map wrap dpre) (dispatchOne s logger pipeline job resources) w0
    = (inr tt, w1, t1) ->
  IsAborted d w1 = (false, w2) ->
  CheckPaused pipeline w2 = ((false, None), w3) ->
  Paused job w3 = (false, w4) ->
  ScheduleBuild job d w4 = ((true, None), w5) ->
  IsReadyToDetermineInputs (wrap d)
    (Session logger "try-start-next-pending-build") w5 = (true, w6) ->
  BuildInputs (wrap d) w6 = ((inputs, false, None), w7) ->
  let tb := [EIsAborted (ID d); ECheckPaused; EPaused; EScheduleBuild (ID d);
             EIsReadyToDetermineInputs (ID d); EBuildInputs (ID d);
             ELogDebug (Session logger "try-start-next-pending-build")
               "build-inputs-not-found"] in
  tryStart s logger pipeline (wrap d) job resources w1 =
    ((mkStartResults false true true, None), w7, tb)
  /\ filter is_compile tb = []
  /\ filter is_status_write tb = []
  /\ TryStart s logger pipeline job jobInputs resources relatedJobs w =
       (let '(x, w8, t8) :=
          for_range (map wrap drest) (dispatchOne s logger pipeline job resources) w7 in
        (tickResult x, w8, EGetPendingBuilds :: t1 ++ tb ++ t8))
  /\ (drest = [] ->
      TryStart s logger pipeline job jobInputs resources relatedJobs w =
        ((false, None), w7, EGetPendingBuilds :: t1 ++ tb)).
Proof.
  intros Hget Hpre Ha Hp Hj Hs Hr Hi tb.
  rewrite <- (embedded_wrap d) in Ha, Hs.
  pose proof (tryStart_inputs_not_found _ _ _ _ _ _ _ _ _ Ha Hp Hj Hs Hr Hi) as Hb.
  rewrite embedded_wrap in Hb. fold tb in Hb.
  pose proof (TryStart_goes_past _ _ _ _ _ _ _ _ _ Hget Hpre
                (dispatchOne_pass _ _ _ _ _ Hb eq_refl eq_refl eq_refl)) as Hrun.
  repeat split; try assumption.
  intros ->. rewrite Hrun. cbn. rewrite ?app_nil_r. reflexivity.
Qed.

(** C8, amended.  When plan compilation fails for the build in position
    [length dpre], the procedure hands the build to [Finish] with status
    errored, which is the only terminal-status write and the only status
    write of the run, and returns the zero result; the tick ends there, its
    trace stopping with that build's calls whatever builds follow.  When the
    finish write goes through, the error of the procedure is nil and the tick
    returns [(true, nil)]; when the finish write itself fails, the procedure
    returns the error wrapped as "finish build" and the tick returns it with
    no retry. *)
Theorem compile_failure_errors_build_once
    dpre d drest w w0 w1 t1 w2 w3 w4 w5 w6 w7 w8 w9 w10 w11
    inputs rts config plan e ferr :
  GetPendingBuilds job w = ((dpre ++ d :: drest, None), w0) ->
  for_range (map wrap dpre) (dispatchOne s logger pipeline job resources) w0
    = (inr tt, w1, t1) ->
  IsAborted d w1 = (false, w2) ->
  CheckPaused pipeline w2 = ((false, None), w3) ->
  Paused job w3 = (false, w4) ->
  ScheduleBuild job d w4 = ((true, None), w5) ->
  IsReadyToDetermineInputs (wrap d)
    (Session logger "try-start-next-pending-build") w5 = (true, w6) ->
  BuildInputs (wrap d) w6 = ((inputs, true, None), w7) ->
  ResourceTypes pipeline w7 = ((rts, None), w8) ->
  Config job w8 = ((config, None), w9) ->
  Create (factory s) config (resourceConfigsOf resources) (Deserialize rts) inputs w9
    = ((plan, Some e), w10) ->
  Finish d BuildStatusErrored w10 = (ferr, w11) ->
  let tb := compileFailureEvents Deserialize logger resources (wrap d) config rts inputs e in
  let '((r, err), w', t) := tryStart s logger pipeline (wrap d) job resources w1 in
  r = startResults_zero
  /\ w' = w11
  /\ filter is_status_write t = [EFinish (ID d) BuildStatusErrored]
  /\ filter is_finish t = [EFinish (ID d) BuildStatusErrored]
  /\ match ferr with
     | None =>
         err = None
         /\ t = tb
         /\ TryStart s logger pipeline job jobInputs resources relatedJobs w =
              ((true, None), w11, EGetPendingBuilds :: t1 ++ tb)
     | Some fe =>
         err = Some (fmt_Errorf_w "finish build" fe)
         /\ t = tb ++ [ELogError (Session logger "try-start-next-pending-build")
                         "failed-to-mark-build-as-errored" fe]
         /\ TryStart s logger pipeline job jobInputs resources relatedJobs w =
              ((false, Some (fmt_Errorf_w "finish build" fe)), w11,
               EGetPendingBuilds :: t1 ++ t)
     end.
Proof.
  intros Hget Hpre Ha Hp Hj Hs Hr Hi Ht Hc Hf Hfin tb.
  rewrite <- (embedded_wrap d) in Ha, Hs, Hfin.
  pose proof (tryStart_compile_fails _ _ _ _ _ _ _ _ _ _ _ _ _ _ _ _ _ _
                Ha Hp Hj Hs Hr Hi Ht Hc Hf Hfin) as Hb.
  fold tb in Hb.
  destruct ferr as [fe|]; rewrite Hb.
  - split; [reflexivity|]. split; [reflexivity|].
    split; [subst tb; cbn; now rewrite embedded_wrap|].
    split; [subst tb; cbn; now rewrite embedded_wrap|].
    split; [reflexivity|]. split; [reflexivity|].
    exact (TryStart_returns_at _ _ _ _ _ _ _ _ _ _ Hget Hpre
             (dispatchOne_error _ _ _ _ _ _ Hb)).
  - rewrite app_nil_r in Hb |- *.
    split; [reflexivity|]. split; [reflexivity|].
    split; [subst tb; cbn; now rewrite embedded_wrap|].
    split; [subst tb; cbn; now rewrite embedded_wrap|].
    split; [reflexivity|]. split; [reflexivity|].
    exact (TryStart_returns_at _ _ _ _ _ _ _ _ _ _ Hget Hpre
             (dispatchOne_stop _ _ _ _ _ Hb eq_refl eq_refl)).
Qed.


(** C2.  The branch of lines 98-101 is never taken.  Whenever the per-build
    procedure returns, without error, a result with scheduled true and
    readyToDetermineInputs false, the iteration returns [(true, nil)] from
    line 95; in general the guard of line 98 is false whenever control gets
    past line 94; and the whole tick is the same whatever line 100 would
    return. *)
Theorem rerun_exception_unreachable b w r w' t :
  tryStart s logger pipeline b job resources w = ((r, None), w', t) ->
  scheduled r = true ->
  readyToDetermineInputs r = false ->
  dispatchOne s logger pipeline job resources b w = (inl (true, None), w', t)
  /\ (forall r0 (b0 : SchedulerBuild),
        notScheduledOrNotReady r0 = false -> scheduledNotReadyNotRerun r0 b0 = false)
  /\ (forall needsRetry' w0,
        TryStartPendingBuildsForJob Deserialize IsReadyToDetermineInputs BuildInputs
          BuildsStarted_Inc needsRetry' s logger pipeline job jobInputs resources
          relatedJobs w0
        = TryStart s logger pipeline job jobInputs resources relatedJobs w0).
Proof.
  intros Hb Hs Hr. split; [|split].
  - destruct (tryStart_results _ _ _ _ _ _ Hb) as [Hshape _].
    apply (dispatchOne_stop _ _ _ _ _ Hb).
    + destruct Hshape as [-> | [-> | [-> | ->]]]; try reflexivity; discriminate.
    + unfold notScheduledOrNotReady. now rewrite Hr, orb_true_r.
  - exact guards_exclusive.
  - intros needsRetry' w0.
    unfold TryStartPendingBuildsForJob, func, bind.
    destruct (invoke EGetPendingBuilds (GetPendingBuilds job) w0)
      as [[[r0|[pending [e| ]]] w1] t1]; try reflexivity.
    cbn.
    now rewrite (for_range_ext _ _ _ w1
                   (dispatchBuild_needsRetry_irrelevant needsRetry')).
Qed.

(** C9.  Whenever [TryStartPendingBuildsForJob] returns a non-nil error, the
    needsRetry boolean returned with it is false, for any pending builds and
    whichever collaborator failed. *)
Theorem error_never_comes_with_retry w retry e w' t :
  TryStart s logger pipeline job jobInputs resources relatedJobs w
    = ((retry, Some e), w', t) ->
  retry = false.
Proof.
  destruct (GetPendingBuilds job w) as [[pending [e0|]] w0] eqn:Hget.
  - rewrite (TryStart_get_fails _ _ _ _ Hget). intros H. now inversion H.
  - rewrite (TryStart_loop _ _ _ Hget).
    destruct (for_range _ _ w0) as [[[[r0 e1]|[]] w1] t1] eqn:El; cbn.
    + intros H. inversion H; subst.
      exact (for_range_error_no_retry _ _ _ _ _ _ El).
    + discriminate.
Qed.

(** ** Further properties of the dispatch code *)

(** *** [constructBuilds] and the resource configs *)

(** X1.  [constructBuilds] returns one wrapper per pending build, in the
    order of the pending builds, each wrapping the build at its position:
    taking the embedded builds back gives the list it was given. *)
Theorem constructBuilds_keeps_builds builds :
  map embedded (constructBuilds s job jobInputs resources relatedJobs builds) = builds
  /\ List.length (constructBuilds s job jobInputs resources relatedJobs builds)
     = List.length builds.
Proof.
  rewrite constructBuilds_map. split; [|apply length_map].
  induction builds as [|d ds IH]; [reflexivity|].
  cbn [map]. now rewrite embedded_wrap, IH.
Qed.

(** X2.  Every wrapper [constructBuilds] makes is of the variant its build
    calls for: a manual-trigger wrapper, carrying the starter's algorithm and
    the job, inputs, resources and related jobs of the call, for a manually
    triggered build, whether or not it is also a re-run; a re-run wrapper for
    a build that is not manually triggered and has a re-run reference; a
    scheduler wrapper otherwise. *)
Theorem constructBuilds_variants builds (b : SchedulerBuild) :
  In b (constructBuilds s job jobInputs resources relatedJobs builds) ->
  In (embedded b) builds
  /\ match b with
     | manualTriggerBuild d a j ji rs rj =>
         IsManuallyTriggered d = true /\ a = algorithm s /\ j = job
         /\ ji = jobInputs /\ rs = resources /\ rj = relatedJobs
     | rerunBuild d => IsManuallyTriggered d = false /\ RerunOf d <> 0
     | schedulerBuild d => IsManuallyTriggered d = false /\ RerunOf d = 0
     end.
Proof.
  rewrite constructBuilds_map, in_map_iff. intros [d [<- Hin]].
  rewrite embedded_wrap. split; [exact Hin|].
  unfold constructBuild.
  destruct (IsManuallyTriggered d) eqn:Hm; [cbn; repeat split; exact Hm|].
  destruct (Z.eqb_spec (RerunOf d) 0) as [Hz|Hz]; cbn; split; auto.
Qed.

(** X3.  The resource configs handed to the plan compiler are made from the
    resources one for one and in order, each with the name, type, source and
    tags of its resource. *)
Theorem resourceConfigs_follow_resources (rs : @db_Resources atc_Source) :
  resourceConfigsOf rs
  = map (fun v => {| rc_Name := Resource_Name v; rc_Type := Resource_Type v;
                     rc_Source := Resource_Source v; rc_Tags := Resource_Tags v |}) rs
  /\ map rc_Name (resourceConfigsOf rs) = map Resource_Name rs
  /\ List.length (resourceConfigsOf rs) = List.length rs.
Proof.
  assert (H : resourceConfigsOf rs
              = map (fun v => {| rc_Name := Resource_Name v; rc_Type := Resource_Type v;
                                 rc_Source := Resource_Source v;
                                 rc_Tags := Resource_Tags v |}) rs).
  { unfold resourceConfigsOf.
    enough (G : forall acc,
               fold_left (fun resourceConfigs v =>
                            resourceConfigs ++
                            [{| rc_Name := Resource_Name v; rc_Type := Resource_Type v;
                                rc_Source := Resource_Source v;
                                rc_Tags := Resource_Tags v |}]) rs acc
               = acc ++ map (fun v => {| rc_Name := Resource_Name v;
                                         rc_Type := Resource_Type v;
                                         rc_Source := Resource_Source v;
                                         rc_Tags := Resource_Tags v |}) rs)
      by apply (G []).
    induction rs as [|v vs IH]; intros acc; cbn.
    - now rewrite app_nil_r.
    - rewrite IH, <- app_assoc. reflexivity. }
  rewrite H. split; [reflexivity|]. split.
  - rewrite map_map. reflexivity.
  - apply length_map.
Qed.

(** *** The ends of the tick *)

(** X4.  With no pending build the tick returns [(false, nil)] and calls
    nothing but the enumeration. *)
Theorem no_pending_builds_no_calls w w0 :
  GetPendingBuilds job w = (([], None), w0) ->
  TryStart s logger pipeline job jobInputs resources relatedJobs w
  = ((false, None), w0, [EGetPendingBuilds]).
Proof.
  intros Hget. rewrite (TryStart_loop _ _ _ Hget). reflexivity.
Qed.

(** X5.  When the enumeration of the pending builds fails, the tick returns
    no retry and the error wrapped as "get pending builds", and calls nothing
    on any build the enumeration may have returned along with the error. *)
Theorem enumeration_failure_ends_tick w pending e w0 :
  GetPendingBuilds job w = ((pending, Some e), w0) ->
  let '((retry, err), w', t) :=
    TryStart s logger pipeline job jobInputs resources relatedJobs w in
  retry = false
  /\ err = Some (fmt_Errorf_w "get pending builds" e)
  /\ w' = w0
  /\ abortChecks t = []
  /\ t = [EGetPendingBuilds].
Proof.
  intros Hget. rewrite (TryStart_get_fails _ _ _ _ Hget). repeat split.
Qed.

(** *** Starting a build *)

Ltac open_planCompiles H :=
  destruct H as (?w & ?w & ?w & ?w & ?w & ?w & ?w & ?w &
                 ?H & ?H & ?H & ?H & ?H & ?H & ?H & ?H & ?H).

Ltac run_to_start :=
  enter;
  repeat match goal with
         | H : ?l = _ |- context [?l] => rewrite H; cbn
         end.

(** Lines 253-276, for each answer of [Start] and of the [Finish] that
    follows a lost start. *)
Lemma tryStart_started b w w10 w11 inputs rts config plan :
  planCompiles Deserialize IsReadyToDetermineInputs BuildInputs
    s logger pipeline b job resources w w10 inputs rts config plan ->
  Start (embedded b) plan w10 = ((true, None), w11) ->
  tryStart s logger pipeline b job resources w =
    ((mkStartResults false true true, None), BuildsStarted_Inc w11,
     startAttemptEvents Deserialize resources b config rts inputs plan
     ++ [EBuildsStartedInc]).
Proof.
  intros Hc Hs. open_planCompiles Hc. run_to_start. reflexivity.
Qed.

Lemma tryStart_start_lost b w w10 w11 w12 inputs rts config plan ferr :
  planCompiles Deserialize IsReadyToDetermineInputs BuildInputs
    s logger pipeline b job resources w w10 inputs rts config plan ->
  Start (embedded b) plan w10 = ((false, None), w11) ->
  Finish (embedded b) BuildStatusAborted w11 = (ferr, w12) ->
  tryStart s logger pipeline b job resources w =
    (match ferr with
     | Some fe => (startResults_zero, Some (fmt_Errorf_w "finish build" fe))
     | None => (mkStartResults false true true, None)
     end, w12,
     startAttemptEvents Deserialize resources b config rts inputs plan
     ++ EFinish (ID (embedded b)) BuildStatusAborted
        :: match ferr with
           | Some fe => [ELogError (Session logger "try-start-next-pending-build")
                           "failed-to-mark-build-as-finished" fe]
           | None => []
           end).
Proof.
  intros Hc Hs Hf. open_planCompiles Hc. run_to_start.
  destruct ferr; reflexivity.
Qed.

Lemma tryStart_start_fails b w w10 w11 inputs rts config plan started e :
  planCompiles Deserialize IsReadyToDetermineInputs BuildInputs
    s logger pipeline b job resources w w10 inputs rts config plan ->
  Start (embedded b) plan w10 = ((started, Some e), w11) ->
  tryStart s logger pipeline b job resources w =
    ((startResults_zero, Some (fmt_Errorf_w "start build" e)), w11,
     startAttemptEvents Deserialize resources b config rts inputs plan
     ++ [ELogError (Session logger "try-start-next-pending-build")
           "failed-to-mark-build-as-started" e]).
Proof.
  intros Hc Hs. open_planCompiles Hc. run_to_start. reflexivity.
Qed.

(** X6.  When the plan of the build in position [length dpre] compiles and
    [Start] reports it started, the procedure returns
    [{scheduled: true, readyToDetermineInputs: true}] with a nil error, the
    counter of started builds is incremented once, after the [Start] call, no
    [Finish] is written, and the loop goes on with the builds behind it. *)
Theorem started_build_counts_once
    dpre d drest w w0 w1 t1 w10 w11 inputs rts config plan :
  GetPendingBuilds job w = ((dpre ++ d :: drest, None), w0) ->
  for_range (map wrap dpre) (dispatchOne s logger pipeline job resources) w0
    = (inr tt, w1, t1) ->
  planCompiles Deserialize IsReadyToDetermineInputs BuildInputs
    s logger pipeline (wrap d) job resources w1 w10 inputs rts config plan ->
  Start d plan w10 = ((true, None), w11) ->
  let tb := startAttemptEvents Deserialize resources (wrap d) config rts inputs plan
            ++ [EBuildsStartedInc] in
  tryStart s logger pipeline (wrap d) job resources w1 =
    ((mkStartResults false true true, None), BuildsStarted_Inc w11, tb)
  /\ filter is_status_write tb = [EStart (ID d) plan]
  /\ filter is_counter_inc tb = [EBuildsStartedInc]
  /\ TryStart s logger pipeline job jobInputs resources relatedJobs w =
       (let '(x, w', t) :=
          for_range (map wrap drest) (dispatchOne s logger pipeline job resources)
            (BuildsStarted_Inc w11) in
        (tickResult x, w', EGetPendingBuilds :: t1 ++ tb ++ t)).
Proof.
  intros Hget Hpre Hc Hs tb.
  rewrite <- (embedded_wrap d) in Hs.
  pose proof (tryStart_started _ _ _ _ _ _ _ _ Hc Hs) as Hb. fold tb in Hb.
  split; [exact Hb|].
  split; [subst tb; cbn; now rewrite embedded_wrap|].
  split; [reflexivity|].
  exact (TryStart_goes_past _ _ _ _ _ _ _ _ _ Hget Hpre
           (dispatchOne_pass _ _ _ _ _ Hb eq_refl eq_refl eq_refl)).
Qed.

(** X7.  When the plan compiles but [Start] reports, without error, that the
    build did not start, the build is finished with status aborted and the
    counter of started builds is not touched.  If that finish write succeeds
    the procedure returns [{scheduled: true, readyToDetermineInputs: true}]
    with a nil error and the loop goes on with the builds behind; if it fails
    the tick ends with the error wrapped as "finish build". *)
Theorem lost_start_race_finishes_aborted
    dpre d drest w w0 w1 t1 w10 w11 w12 inputs rts config plan ferr :
  GetPendingBuilds job w = ((dpre ++ d :: drest, None), w0) ->
  for_range (map wrap dpre) (dispatchOne s logger pipeline job resources) w0
    = (inr tt, w1, t1) ->
  planCompiles Deserialize IsReadyToDetermineInputs BuildInputs
    s logger pipeline (wrap d) job resources w1 w10 inputs rts config plan ->
  Start d plan w10 = ((false, None), w11) ->
  Finish d BuildStatusAborted w11 = (ferr, w12) ->
  let '((r, err), w', tb) := tryStart s logger pipeline (wrap d) job resources w1 in
  w' = w12
  /\ filter is_status_write tb = [EStart (ID d) plan; EFinish (ID d) BuildStatusAborted]
  /\ filter is_counter_inc tb = []
  /\ match ferr with
     | None =>
         r = mkStartResults false true true /\ err = None
         /\ TryStart s logger pipeline job jobInputs resources relatedJobs w =
              (let '(x, w3, t) :=
                 for_range (map wrap drest)
                   (dispatchOne s logger pipeline job resources) w12 in
               (tickResult x, w3, EGetPendingBuilds :: t1 ++ tb ++ t))
     | Some fe =>
         r = startResults_zero /\ err = Some (fmt_Errorf_w "finish build" fe)
         /\ TryStart s logger pipeline job jobInputs resources relatedJobs w =
              ((false, Some (fmt_Errorf_w "finish build" fe)), w12,
               EGetPendingBuilds :: t1 ++ tb)
     end.
Proof.
  intros Hget Hpre Hc Hs Hf.
  rewrite <- (embedded_wrap d) in Hs, Hf.
  pose proof (tryStart_start_lost _ _ _ _ _ _ _ _ _ _ Hc Hs Hf) as Hb.
  destruct ferr as [fe|]; rewrite Hb.
  - split; [reflexivity|].
    split; [cbn; now rewrite embedded_wrap|].
    split; [reflexivity|].
    split; [reflexivity|]. split; [reflexivity|].
    exact (TryStart_returns_at _ _ _ _ _ _ _ _ _ _ Hget Hpre
             (dispatchOne_error _ _ _ _ _ _ Hb)).
  - split; [reflexivity|].
    split; [cbn; now rewrite embedded_wrap|].
    split; [reflexivity|].
    split; [reflexivity|]. split; [reflexivity|].
    exact (TryStart_goes_past _ _ _ _ _ _ _ _ _ Hget Hpre
             (dispatchOne_pass _ _ _ _ _ Hb eq_refl eq_refl eq_refl)).
Qed.

(** *** What no run of the per-build procedure does *)

(** X8.  Whatever the collaborators answer, one run of the per-build
    procedure makes at most one scheduling claim, one plan compilation, one
    [Start] call, one [Finish] call and one increment of the counter of
    started builds. *)
Theorem at_most_one_of_each_write b w :
  let t := snd (tryStart s logger pipeline b job resources w) in
  (List.length (filter is_claim t) <= 1
   /\ List.length (filter is_compile t) <= 1
   /\ List.length (filter is_start t) <= 1
   /\ List.length (filter is_finish t) <= 1
   /\ List.length (filter is_counter_inc t) <= 1)%nat.
Proof.
  enter. split_calls; repeat split; repeat constructor.
Qed.

(** X9.  The counter of started builds is incremented only by a run that
    went all the way: if the increment is in the trace, the trace is the
    full sequence of calls ending with [Start] and then the increment, the
    result is [{scheduled: true, readyToDetermineInputs: true}] and the
    error is nil. *)
Theorem counter_only_after_start b w r err w' t :
  tryStart s logger pipeline b job resources w = ((r, err), w', t) ->
  In EBuildsStartedInc t ->
  r = mkStartResults false true true
  /\ err = None
  /\ exists config rts inputs plan,
       t = startAttemptEvents Deserialize resources b config rts inputs plan
           ++ [EBuildsStartedInc].
Proof.
  enter. split_calls; intros H; inversion H; subst; clear H; cbn; intros Hin;
    repeat (destruct Hin as [Hin|Hin]; [try discriminate Hin|]);
    try contradiction.
  all: split; [reflexivity|]; split; [reflexivity|].
  all: do 4 eexists; unfold startAttemptEvents; cbn; reflexivity.
Qed.

(** X10.  Every call the per-build procedure makes on a build is made on
    the build it was given: no other build is claimed, read, started or
    finished. *)
Theorem calls_only_on_own_build b w :
  Forall (fun e => event_build e = None
                   \/ event_build e = Some (ID (embedded b)))
    (snd (tryStart s logger pipeline b job resources w)).
Proof.
  enter. split_calls;
    repeat (apply Forall_cons; [cbn; auto|]); apply Forall_nil.
Qed.


(** *** The tick, build after build *)

(** X12.  An error of the per-build procedure on the build in position
    [length dpre] ends the tick: it is returned as it is, with no retry, and
    no call is made for the builds behind. *)
Theorem build_error_ends_tick dpre d drest w w0 w1 t1 r e w2 t2 :
  GetPendingBuilds job w = ((dpre ++ d :: drest, None), w0) ->
  for_range (map wrap dpre) (dispatchOne s logger pipeline job resources) w0
    = (inr tt, w1, t1) ->
  tryStart s logger pipeline (wrap d) job resources w1 = ((r, Some e), w2, t2) ->
  TryStart s logger pipeline job jobInputs resources relatedJobs w
  = ((false, Some e), w2, EGetPendingBuilds :: t1 ++ t2).
Proof.
  intros Hget Hpre Hb.
  exact (TryStart_returns_at _ _ _ _ _ _ _ _ _ _ Hget Hpre
           (dispatchOne_error _ _ _ _ _ _ Hb)).
Qed.

(** X13.  When the loop reaches a build that is not aborted while the
    pipeline or the job is paused, the tick stops there asking for a retry,
    with a nil error; for that build it makes no scheduling claim and writes
    no status, and it makes no call for the builds behind. *)
Theorem paused_stops_tick_with_retry
    dpre d drest w w0 w1 t1 w2 w3 w4 pipelinePaused jobPaused :
  GetPendingBuilds job w = ((dpre ++ d :: drest, None), w0) ->
  for_range (map wrap dpre) (dispatchOne s logger pipeline job resources) w0
    = (inr tt, w1, t1) ->
  IsAborted d w1 = (false, w2) ->
  CheckPaused pipeline w2 = ((pipelinePaused, None), w3) ->
  Paused job w3 = (jobPaused, w4) ->
  pipelinePaused = true \/ jobPaused = true ->
  let '((retry, err), w', t) :=
    TryStart s logger pipeline job jobInputs resources relatedJobs w in
  retry = true
  /\ err = None
  /\ exists tb,
       t = EGetPendingBuilds :: t1 ++ tb
       /\ abortChecks tb = [ID d]
       /\ filter is_claim tb = []
       /\ filter is_status_write tb = [].
Proof.
  intros Hget Hpre Ha Hp Hj Hor.
  rewrite <- (embedded_wrap d) in Ha.
  destruct pipelinePaused.
  - pose proof (tryStart_pipeline_paused _ _ _ _ _ Ha Hp) as Hb.
    rewrite (TryStart_returns_at _ _ _ _ _ _ _ _ _ _ Hget Hpre
               (dispatchOne_stop _ _ _ _ _ Hb eq_refl eq_refl)).
    repeat split. eexists. split; [reflexivity|].
    cbn. rewrite embedded_wrap. repeat split.
  - destruct Hor as [Hor|Hor]; [discriminate|subst jobPaused].
    pose proof (tryStart_job_paused _ _ _ _ _ Ha Hp Hj) as Hb.
    rewrite (TryStart_returns_at _ _ _ _ _ _ _ _ _ _ Hget Hpre
               (dispatchOne_stop _ _ _ _ _ Hb eq_refl eq_refl)).
    repeat split. eexists. split; [reflexivity|].
    cbn. rewrite embedded_wrap. repeat split.
Qed.

Lemma abortChecks_app t1 t2 :
  abortChecks (t1 ++ t2)
  = abortChecks t1 ++ @abortChecks atc_Source atc_JobConfig
                        atc_VersionedResourceTypes atc_Plan db_BuildInput t2.
Proof. apply flat_map_app. Qed.

(** One run of the per-build procedure reads one abort flag, its build's. *)
Lemma abortChecks_tryStart b w :
  abortChecks (snd (tryStart s logger pipeline b job resources w))
  = [ID (embedded b)].
Proof.
  enter. split_calls; reflexivity.
Qed.

Lemma abortChecks_dispatchOne d w :
  abortChecks (snd (dispatchOne s logger pipeline job resources (wrap d) w)) = [ID d].
Proof.
  now rewrite dispatchOne_trace, abortChecks_tryStart, embedded_wrap.
Qed.

Lemma for_range_abortChecks ds w :
  exists k,
    abortChecks (snd (for_range (map wrap ds)
                        (dispatchOne s logger pipeline job resources) w))
    = firstn k (map ID ds).
Proof.
  revert w. induction ds as [|d ds IH]; intros w.
  - exists 0%nat. reflexivity.
  - cbn [map]. rewrite for_range_cons.
    pose proof (abortChecks_dispatchOne d w) as Hd.
    destruct (dispatchOne s logger pipeline job resources (wrap d) w)
      as [[[r|[]] w1] t1]; cbn [snd] in Hd |- *.
    + exists 1%nat. rewrite Hd. reflexivity.
    + destruct (IH w1) as [k Hk].
      destruct (for_range _ _ w1) as [[z w2] t2]. cbn [snd] in Hk |- *.
      exists (S k). rewrite abortChecks_app, Hd, Hk. reflexivity.
Qed.

(** X14.  The tick takes the pending builds in the order of the
    enumeration, without skipping any: the builds whose abort flag it reads,
    in the order it reads them, are the first [k] pending builds, for some
    [k]. *)
Theorem builds_evaluated_in_order w pending w0 :
  GetPendingBuilds job w = ((pending, None), w0) ->
  exists k,
    abortChecks (snd (TryStart s logger pipeline job jobInputs resources relatedJobs w))
    = firstn k (map ID pending).
Proof.
  intros Hget. rewrite (TryStart_loop _ _ _ Hget).
  destruct (for_range_abortChecks pending w0) as [k Hk].
  destruct (for_range _ _ w0) as [[x w1] t]. cbn in Hk |- *.
  exists k. exact Hk.
Qed.

(** An iteration never returns [(false, nil)]. *)
Lemma dispatchOne_never_false_nil b w w' t :
  dispatchOne s logger pipeline job resources b w <> (inl (false, None), w', t).
Proof.
  unfold dispatchBuild, bind, call, when, Return, ret.
  destruct (tryStart s logger pipeline b job resources w) as [[[r [e0|]] w1] t1]; cbn.
  - discriminate.
  - destruct (aborted r); cbn; [discriminate|].
    destruct (notScheduledOrNotReady r) eqn:G; cbn; [discriminate|].
    rewrite (guards_exclusive r b G). cbn. discriminate.
Qed.

Lemma for_range_complete ds w w' t :
  for_range (map wrap ds) (dispatchOne s logger pipeline job resources) w
    = (inl (false, None), w', t) -> False.
Proof.
  revert w t. induction ds as [|d ds IH]; intros w t; [discriminate|].
  cbn [map]. rewrite for_range_cons.
  destruct (dispatchOne s logger pipeline job resources (wrap d) w)
    as [[[r|[]] w1] t1] eqn:E.
  - intros H. inversion H; subst. exact (dispatchOne_never_false_nil _ _ _ _ E).
  - destruct (for_range _ _ w1) as [[z w2] t2] eqn:El.
    intros H. inversion H; subst. exact (IH _ _ El).
Qed.

Lemma for_range_all_abortChecks ds w w' t :
  for_range (map wrap ds) (dispatchOne s logger pipeline job resources) w
    = (inr tt, w', t) ->
  abortChecks t = map ID ds.
Proof.
  revert w t. induction ds as [|d ds IH]; intros w t.
  - intros H. inversion H. reflexivity.
  - cbn [map]. rewrite for_range_cons.
    pose proof (abortChecks_dispatchOne d w) as Hd.
    destruct (dispatchOne s logger pipeline job resources (wrap d) w)
      as [[[r|[]] w1] t1]; [discriminate|]. cbn [snd] in Hd.
    destruct (for_range _ _ w1) as [[z w2] t2] eqn:El.
    intros H. inversion H; subst.
    rewrite abortChecks_app, Hd, (IH _ _ El). reflexivity.
Qed.

(** X15.  A tick that returns no retry and no error has gone through every
    pending build: it has read the abort flag of each of them, once and in
    order. *)
Theorem quiet_tick_evaluated_every_build w pending w0 w' t :
  GetPendingBuilds job w = ((pending, None), w0) ->
  TryStart s logger pipeline job jobInputs resources relatedJobs w
    = ((false, None), w', t) ->
  abortChecks t = map ID pending.
Proof.
  intros Hget. rewrite (TryStart_loop _ _ _ Hget).
  destruct (for_range _ _ w0) as [[[[retry err]|[]] w1] t1] eqn:El; cbn.
  - intros H. inversion H; subst.
    destruct (for_range_complete _ _ _ _ El).
  - intros H. inversion H; subst. cbn.
    exact (for_range_all_abortChecks _ _ _ _ El).
Qed.

End Properties.

(** * Re-run builds under the readiness of the spec *)

Section RerunReadiness.

Context {W : Type}.
Context {atc_JobInput atc_Source atc_JobConfig atc_VersionedResourceTypes
         atc_Plan db_BuildInput db_ResourceTypes Algorithm NameToIDMap : Type}.

Local Notation "'SchedulerBuild'" :=
  (@Build W atc_JobInput atc_Source atc_JobConfig atc_Plan Algorithm NameToIDMap).

Variable Deserialize : db_ResourceTypes -> atc_VersionedResourceTypes.

(** What the version-resolution algorithm reports for the builds that
    consult it. *)
Variable reports : SchedulerBuild -> lager_Logger -> W -> bool * W.

Variable BuildInputs :
  SchedulerBuild -> W -> (list db_BuildInput * bool * option error) * W.
Variable BuildsStarted_Inc : W -> W.
Variable needsRetry : startResults -> bool.

Local Notation "'tryStart'" :=
  (tryStartNextPendingBuild Deserialize (specIsReadyToDetermineInputs reports)
     BuildInputs BuildsStarted_Inc).
Local Notation "'dispatchOne'" :=
  (dispatchBuild Deserialize (specIsReadyToDetermineInputs reports) BuildInputs
     BuildsStarted_Inc needsRetry).
Local Notation "'TryStart'" :=
  (TryStartPendingBuildsForJob Deserialize (specIsReadyToDetermineInputs reports)
     BuildInputs BuildsStarted_Inc needsRetry).

Variable s : @buildStarter W atc_Source atc_JobConfig atc_VersionedResourceTypes
               atc_Plan db_BuildInput Algorithm.
Variable logger : lager_Logger.
Variable pipeline : @db_Pipeline W db_ResourceTypes.
Variable job : @db_Job W atc_JobConfig atc_Plan.
Variable jobInputs : list atc_JobInput.
Variable resources : @db_Resources atc_Source.
Variable relatedJobs : NameToIDMap.

Local Notation "'wrap'" := (constructBuild s job jobInputs resources relatedJobs).





End RerunReadiness.

(** * Concrete runs *)

(** The runs below are over the in-memory storage of [Fake]. *)

(** No pending build: [(false, nil)], and only the enumeration is called. *)
Example run_no_pending_builds :
  Fake.dispatch [] [] (fun _ => false) (Fake.starter None) Fake.logger
    (Fake.pipeline false None) (Fake.job [] None false []) [] [] tt Fake.empty
  = ((false, None), Fake.empty, [EGetPendingBuilds]).
Proof. reflexivity. Qed.

(** One normal build, ready: it is claimed, compiled and started, the counter
    goes up by one, and no retry is asked for. *)
Example run_single_ready_build :
  Fake.dispatch [] [] (fun _ => false) (Fake.starter None) Fake.logger
    (Fake.pipeline false None) (Fake.job [Fake.normal1] None false []) [] [] tt Fake.empty
  = ((false, None), Fake.started1, EGetPendingBuilds :: Fake.starting1)
  /\ Fake.buildsStarted Fake.started1 = 1%nat.
Proof. split; reflexivity. Qed.

(** One aborted build: it is finished as aborted and the loop completes. *)
Example run_single_aborted_build :
  Fake.dispatch [] [] (fun _ => false) (Fake.starter None) Fake.logger
    (Fake.pipeline false None) (Fake.job [Fake.aborted4] None false []) [] [] tt Fake.empty
  = ((false, None), Fake.finished4, EGetPendingBuilds :: Fake.finishing4).
Proof. reflexivity. Qed.



Lemma abort_precedes_pause_witness :
  let '((r, err), w', t) :=
    Fake.tryStart [] [] (Fake.starter None) Fake.logger (Fake.pipeline true None)
      (schedulerBuild Fake.aborted4) (Fake.job [Fake.aborted4] None true []) []
      Fake.empty in
  t = [EIsAborted 4; ELogDebug Fake.session "cancel-aborted-pending-build";
       EFinish 4 BuildStatusAborted]
  /\ filter is_pause_check t = []
  /\ filter is_claim t = []
  /\ w' = Fake.recordFinish 4 BuildStatusAborted Fake.empty
  /\ r = mkStartResults true false false /\ err = None.
Proof.
  exact (abort_precedes_pause Fake.deserialize (Fake.isReady []) (Fake.buildInputs [])
           Fake.inc (Fake.starter None) Fake.logger (Fake.pipeline true None)
           (Fake.job [Fake.aborted4] None true []) []
           (schedulerBuild Fake.aborted4) Fake.empty Fake.empty
           (Fake.recordFinish 4 BuildStatusAborted Fake.empty) None
           eq_refl eq_refl).
Defined.

Lemma paused_no_claim_no_write_witness :
  let '((r, err), w', t) :=
    Fake.tryStart [] [] (Fake.starter None) Fake.logger (Fake.pipeline false None)
      (schedulerBuild Fake.normal1) (Fake.job [Fake.normal1] None true []) []
      Fake.empty in
  r = startResults_zero
  /\ filter is_claim t = []
  /\ filter is_status_write t = []
  /\ (@None error = None -> err = None).
Proof.
  exact (paused_no_claim_no_write Fake.deserialize (Fake.isReady []) (Fake.buildInputs [])
           Fake.inc (Fake.starter None) Fake.logger (Fake.pipeline false None)
           (Fake.job [Fake.normal1] None true []) []
           (schedulerBuild Fake.normal1) Fake.empty Fake.empty Fake.empty Fake.empty
           false None true eq_refl eq_refl eq_refl (or_intror eq_refl)).
Defined.

Lemma aborted_build_does_not_block_witness :
  Fake.tryStart [] [] (Fake.starter None) Fake.logger (Fake.pipeline false None)
    (schedulerBuild Fake.aborted4)
    (Fake.job [Fake.normal1; Fake.aborted4; Fake.normal3] None false []) []
    Fake.started1
  = ((mkStartResults true false false, None),
     Fake.recordFinish 4 BuildStatusAborted Fake.started1, Fake.finishing4)
  /\ exists t',
       snd (Fake.dispatch [] [] (fun _ => false) (Fake.starter None) Fake.logger
              (Fake.pipeline false None)
              (Fake.job [Fake.normal1; Fake.aborted4; Fake.normal3] None false [])
              [] [] tt Fake.empty)
       = EGetPendingBuilds :: Fake.starting1 ++ Fake.finishing4 ++ EIsAborted 3 :: t'.
Proof.
  pose proof (aborted_build_does_not_block Fake.deserialize (Fake.isReady [])
                (Fake.buildInputs []) Fake.inc (fun _ => false) (Fake.starter None)
                Fake.logger (Fake.pipeline false None)
                (Fake.job [Fake.normal1; Fake.aborted4; Fake.normal3] None false [])
                [] [] tt [Fake.normal1] Fake.aborted4 [Fake.normal3]
                Fake.empty Fake.empty Fake.started1 Fake.starting1 Fake.started1
                (Fake.recordFinish 4 BuildStatusAborted Fake.started1) None
                eq_refl eq_refl eq_refl eq_refl) as [Hb [_ Hnext]].
  split; [exact Hb|].
  exact (Hnext Fake.normal3 [] eq_refl).
Defined.

Lemma single_normal_build_not_ready_witness :
  let '((retry, err), w', t) :=
    Fake.dispatch [1] [] (fun _ => false) (Fake.starter None) Fake.logger
      (Fake.pipeline false None) (Fake.job [Fake.normal1] None false [])
      [] [] tt Fake.empty in
  retry = true
  /\ err = None
  /\ w' = Fake.recordClaim 1 Fake.empty
  /\ t = [EGetPendingBuilds; EIsAborted 1; ECheckPaused; EPaused;
          EScheduleBuild 1; EIsReadyToDetermineInputs 1]
  /\ filter is_status_write t = [].
Proof.
  exact (single_normal_build_not_ready Fake.deserialize (Fake.isReady [1])
           (Fake.buildInputs []) Fake.inc (fun _ => false) (Fake.starter None)
           Fake.logger (Fake.pipeline false None) (Fake.job [Fake.normal1] None false [])
           [] [] tt Fake.normal1
           Fake.empty Fake.empty Fake.empty Fake.empty Fake.empty
           (Fake.recordClaim 1 Fake.empty) (Fake.recordClaim 1 Fake.empty)
           eq_refl eq_refl eq_refl eq_refl eq_refl eq_refl eq_refl eq_refl).
Defined.

Lemma lost_claim_stops_the_tick_witness :
  Fake.dispatch [] [] (fun _ => false) (Fake.starter None) Fake.logger
    (Fake.pipeline false None)
    (Fake.job [Fake.aborted4; Fake.normal1; Fake.normal3] None false [1])
    [] [] tt Fake.empty
  = ((true, None), Fake.finished4,
     EGetPendingBuilds :: Fake.finishing4 ++
     [EIsAborted 1; ECheckPaused; EPaused; EScheduleBuild 1;
      ELogDebug Fake.session "build-not-scheduled"]).
Proof.
  exact (proj2 (lost_claim_stops_the_tick Fake.deserialize (Fake.isReady [])
                  (Fake.buildInputs []) Fake.inc (fun _ => false) (Fake.starter None)
                  Fake.logger (Fake.pipeline false None)
                  (Fake.job [Fake.aborted4; Fake.normal1; Fake.normal3] None false [1])
                  [] [] tt [Fake.aborted4] Fake.normal1 [Fake.normal3]
                  Fake.empty Fake.empty Fake.finished4 Fake.finishing4
                  Fake.finished4 Fake.finished4 Fake.finished4 Fake.finished4
                  eq_refl eq_refl eq_refl eq_refl eq_refl eq_refl)).
Defined.

Lemma inputs_not_found_leaves_build_pending_witness :
  Fake.tryStart [] [3] (Fake.starter None) Fake.logger (Fake.pipeline false None)
    (schedulerBuild Fake.normal3) (Fake.job [Fake.aborted4; Fake.normal3] None false [])
    [] Fake.finished4
  = ((mkStartResults false true true, None), Fake.recordClaim 3 Fake.finished4,
     [EIsAborted 3; ECheckPaused; EPaused; EScheduleBuild 3;
      EIsReadyToDetermineInputs 3; EBuildInputs 3;
      ELogDebug Fake.session "build-inputs-not-found"])
  /\ Fake.dispatch [] [3] (fun _ => false) (Fake.starter None) Fake.logger
       (Fake.pipeline false None) (Fake.job [Fake.aborted4; Fake.normal3] None false [])
       [] [] tt Fake.empty
     = ((false, None), Fake.recordClaim 3 Fake.finished4,
        EGetPendingBuilds :: Fake.finishing4 ++
        [EIsAborted 3; ECheckPaused; EPaused; EScheduleBuild 3;
         EIsReadyToDetermineInputs 3; EBuildInputs 3;
         ELogDebug Fake.session "build-inputs-not-found"]).
Proof.
  pose proof (inputs_not_found_leaves_build_pending Fake.deserialize (Fake.isReady [])
                (Fake.buildInputs [3]) Fake.inc (fun _ => false) (Fake.starter None)
                Fake.logger (Fake.pipeline false None)
                (Fake.job [Fake.aborted4; Fake.normal3] None false [])
                [] [] tt [Fake.aborted4] Fake.normal3 []
                Fake.empty Fake.empty Fake.finished4 Fake.finishing4
                Fake.finished4 Fake.finished4 Fake.finished4
                (Fake.recordClaim 3 Fake.finished4) (Fake.recordClaim 3 Fake.finished4)
                (Fake.recordClaim 3 Fake.finished4) []
                eq_refl eq_refl eq_refl eq_refl eq_refl eq_refl eq_refl eq_refl)
    as [Hb [_ [_ [_ Hlast]]]].
  split; [exact Hb|exact (Hlast eq_refl)].
Defined.

Lemma compile_failure_errors_build_once_witness :
  Fake.dispatch [] [] (fun _ => false)
    (Fake.starter (Some (ErrCollaborator "invalid plan"))) Fake.logger
    (Fake.pipeline false None)
    (Fake.job [Fake.aborted4; Fake.normal1; Fake.normal3] None false [])
    [] [] tt Fake.empty
  = ((true, None),
     Fake.recordFinish 1 BuildStatusErrored (Fake.recordClaim 1 Fake.finished4),
     EGetPendingBuilds :: Fake.finishing4 ++
     [EIsAborted 1; ECheckPaused; EPaused; EScheduleBuild 1;
      EIsReadyToDetermineInputs 1; EBuildInputs 1; EResourceTypes; EConfig;
      ECreate tt [] tt [];
      ELogError Fake.session "failed-to-create-build-plan" (ErrCollaborator "invalid plan");
      EFinish 1 BuildStatusErrored]).
Proof.
  exact (proj2 (proj2 (proj2 (proj2 (proj2 (proj2
    (compile_failure_errors_build_once Fake.deserialize (Fake.isReady [])
       (Fake.buildInputs []) Fake.inc (fun _ => false)
       (Fake.starter (Some (ErrCollaborator "invalid plan"))) Fake.logger
       (Fake.pipeline false None)
       (Fake.job [Fake.aborted4; Fake.normal1; Fake.normal3] None false [])
       [] [] tt [Fake.aborted4] Fake.normal1 [Fake.normal3]
       Fake.empty Fake.empty Fake.finished4 Fake.finishing4
       Fake.finished4 Fake.finished4 Fake.finished4
       (Fake.recordClaim 1 Fake.finished4) (Fake.recordClaim 1 Fake.finished4)
       (Fake.recordClaim 1 Fake.finished4) (Fake.recordClaim 1 Fake.finished4)
       (Fake.recordClaim 1 Fake.finished4) (Fake.recordClaim 1 Fake.finished4)
       (Fake.recordFinish 1 BuildStatusErrored (Fake.recordClaim 1 Fake.finished4))
       [] tt tt tt (ErrCollaborator "invalid plan") None
       eq_refl eq_refl eq_refl eq_refl eq_refl eq_refl eq_refl eq_refl eq_refl
       eq_refl eq_refl eq_refl))))))).
Defined.

(** C8, the claim as stated fails when the finish write fails.  Build #10 is
    claimed and ready, its plan does not compile, and its [Finish] write
    fails: the procedure returns an error, and so does the tick. *)
Lemma compile_failure_finish_write_fails :
  let run :=
    Fake.tryStart [] [] (Fake.starter (Some (ErrCollaborator "invalid plan")))
      Fake.logger (Fake.pipeline false None) (schedulerBuild Fake.unfinishable10)
      (Fake.job [Fake.unfinishable10; Fake.normal3] None false []) [] Fake.empty in
  let tick :=
    Fake.dispatch [] [] (fun _ => false)
      (Fake.starter (Some (ErrCollaborator "invalid plan"))) Fake.logger
      (Fake.pipeline false None)
      (Fake.job [Fake.unfinishable10; Fake.normal3] None false [])
      [] [] tt Fake.empty in
  snd (fst (fst run))
    = Some (fmt_Errorf_w "finish build" (ErrCollaborator "storage unreachable"))
  /\ snd (fst (fst run)) <> None
  /\ fst (fst tick)
     = (false, Some (fmt_Errorf_w "finish build" (ErrCollaborator "storage unreachable")))
  /\ snd (fst (fst tick)) <> None.
Proof.
  cbv zeta. split; [reflexivity|]. split; [discriminate|].
  split; [reflexivity|discriminate].
Qed.

(** C10, the claim as stated fails when the finish write fails.  Build #5 has
    its abort flag set, the pipeline and the job are paused, and the [Finish]
    write fails: the procedure returns the zero result and an error, not
    [{aborted: true}]. *)
Lemma abort_finish_write_fails_under_pause :
  let run :=
    Fake.tryStart [] [] (Fake.starter None) Fake.logger (Fake.pipeline true None)
      (schedulerBuild Fake.aborted5) (Fake.job [Fake.aborted5] None true []) []
      Fake.empty in
  run = ((startResults_zero,
          Some (fmt_Errorf_w "finish aborted build"
                  (ErrCollaborator "storage unreachable"))),
         Fake.empty,
         [EIsAborted 5; ELogDebug Fake.session "cancel-aborted-pending-build";
          EFinish 5 BuildStatusAborted])
  /\ fst (fst (fst run)) <> mkStartResults true false false.
Proof.
  cbv zeta. split; [reflexivity|discriminate].
Qed.

Lemma rerun_exception_unreachable_witness :
  Fake.dispatchOne [2] [] (fun _ => false) (Fake.starter None) Fake.logger
    (Fake.pipeline false None) (Fake.job [Fake.rerun2; Fake.normal3] None false []) []
    (rerunBuild Fake.rerun2) Fake.empty
  = (inl (true, None), Fake.recordClaim 2 Fake.empty,
     [EIsAborted 2; ECheckPaused; EPaused; EScheduleBuild 2;
      EIsReadyToDetermineInputs 2]).
Proof.
  exact (proj1 (rerun_exception_unreachable Fake.deserialize (Fake.isReady [2])
                  (Fake.buildInputs []) Fake.inc (fun _ => false) (Fake.starter None)
                  Fake.logger (Fake.pipeline false None)
                  (Fake.job [Fake.rerun2; Fake.normal3] None false []) [] [] tt
                  (rerunBuild Fake.rerun2) Fake.empty
                  (mkStartResults false true false) (Fake.recordClaim 2 Fake.empty)
                  [EIsAborted 2; ECheckPaused; EPaused; EScheduleBuild 2;
                   EIsReadyToDetermineInputs 2]
                  eq_refl eq_refl eq_refl)).
Defined.

Lemma error_never_comes_with_retry_witness :
  let '((retry, err), w', t) :=
    Fake.dispatch [] [] (fun _ => true) (Fake.starter None) Fake.logger
      (Fake.pipeline false None) (Fake.job [Fake.normal1; Fake.aborted5] None false [])
      [] [] tt Fake.empty in
  err = Some (fmt_Errorf_w "finish aborted build" (ErrCollaborator "storage unreachable"))
  /\ retry = false.
Proof.
  split; [reflexivity|].
  exact (error_never_comes_with_retry Fake.deserialize (Fake.isReady [])
           (Fake.buildInputs []) Fake.inc (fun _ => true) (Fake.starter None)
           Fake.logger (Fake.pipeline false None)
           (Fake.job [Fake.normal1; Fake.aborted5] None false []) [] [] tt
           Fake.empty false
           (fmt_Errorf_w "finish aborted build" (ErrCollaborator "storage unreachable"))
           Fake.started1
           (EGetPendingBuilds :: Fake.starting1 ++
            [EIsAborted 5; ELogDebug Fake.session "cancel-aborted-pending-build";
             EFinish 5 BuildStatusAborted])
           eq_refl).
Defined.

(** * Concrete runs for the further properties *)

Lemma constructBuilds_variants_witness :
  In Fake.manualRerun8 [Fake.manualRerun8; Fake.rerun2; Fake.normal1]
  /\ IsManuallyTriggered Fake.manualRerun8 = true
  /\ tt = algorithm (Fake.starter None)
  /\ Fake.jobMixed = Fake.jobMixed
  /\ ([] : list unit) = [] /\ ([] : Fake.Resources) = [] /\ tt = tt.
Proof.
  exact (constructBuilds_variants (Fake.starter None) Fake.jobMixed
           ([] : list unit) ([] : Fake.Resources) tt
           [Fake.manualRerun8; Fake.rerun2; Fake.normal1]
           (manualTriggerBuild Fake.manualRerun8 tt Fake.jobMixed [] [] tt)
           (or_introl eq_refl)).
Defined.

Lemma no_pending_builds_no_calls_witness :
  Fake.dispatch [] [] (fun _ => true) (Fake.starter None) Fake.logger
    (Fake.pipeline true None) (Fake.job [] None true []) [] [] tt Fake.empty
  = ((false, None), Fake.empty, [EGetPendingBuilds]).
Proof.
  exact (no_pending_builds_no_calls Fake.deserialize (Fake.isReady [])
           (Fake.buildInputs []) Fake.inc (fun _ => true) (Fake.starter None)
           Fake.logger (Fake.pipeline true None) (Fake.job [] None true [])
           [] [] tt Fake.empty Fake.empty eq_refl).
Defined.

Lemma enumeration_failure_ends_tick_witness :
  let '((retry, err), w', t) :=
    Fake.dispatch [] [] (fun _ => true) (Fake.starter None) Fake.logger
      (Fake.pipeline false None)
      (Fake.job [Fake.normal1] (Some (ErrCollaborator "storage unreachable")) false [])
      [] [] tt Fake.empty in
  retry = false
  /\ err = Some (fmt_Errorf_w "get pending builds" (ErrCollaborator "storage unreachable"))
  /\ w' = Fake.empty
  /\ abortChecks t = []
  /\ t = [EGetPendingBuilds].
Proof.
  exact (enumeration_failure_ends_tick Fake.deserialize (Fake.isReady [])
           (Fake.buildInputs []) Fake.inc (fun _ => true) (Fake.starter None)
           Fake.logger (Fake.pipeline false None)
           (Fake.job [Fake.normal1] (Some (ErrCollaborator "storage unreachable")) false [])
           [] [] tt Fake.empty [Fake.normal1] (ErrCollaborator "storage unreachable")
           Fake.empty eq_refl).
Defined.

Lemma normal1_planCompiles (j : Fake.Job) (w : Fake.Store) :
  Paused j w = (false, w) ->
  ScheduleBuild j Fake.normal1 w = ((true, None), Fake.recordClaim 1 w) ->
  Config j (Fake.recordClaim 1 w) = ((tt, None), Fake.recordClaim 1 w) ->
  planCompiles Fake.deserialize (Fake.isReady []) (Fake.buildInputs [])
    (Fake.starter None) Fake.logger (Fake.pipeline false None)
    (schedulerBuild Fake.normal1) j [] w (Fake.recordClaim 1 w) [] tt tt tt.
Proof.
  intros Hp Hs Hc.
  exists w, w, w, (Fake.recordClaim 1 w), (Fake.recordClaim 1 w),
    (Fake.recordClaim 1 w), (Fake.recordClaim 1 w), (Fake.recordClaim 1 w).
  repeat split; assumption.
Defined.

Lemma started_build_counts_once_witness :
  Fake.dispatch [] [] (fun _ => false) (Fake.starter None) Fake.logger
    (Fake.pipeline false None) Fake.jobTwo [] [] tt Fake.empty
  = ((false, None),
     Fake.inc (Fake.recordStart 1 (Fake.recordClaim 1 Fake.finished4)),
     EGetPendingBuilds :: Fake.finishing4 ++ Fake.reachingStart 1 ++ [EBuildsStartedInc]).
Proof.
  exact (proj2 (proj2 (proj2
    (started_build_counts_once Fake.deserialize (Fake.isReady [])
       (Fake.buildInputs []) Fake.inc (fun _ => false) (Fake.starter None)
       Fake.logger (Fake.pipeline false None) Fake.jobTwo [] [] tt
       [Fake.aborted4] Fake.normal1 []
       Fake.empty Fake.empty Fake.finished4 Fake.finishing4
       (Fake.recordClaim 1 Fake.finished4)
       (Fake.recordStart 1 (Fake.recordClaim 1 Fake.finished4))
       [] tt tt tt
       eq_refl eq_refl
       (normal1_planCompiles Fake.jobTwo Fake.finished4 eq_refl eq_refl eq_refl)
       eq_refl)))).
Defined.

Lemma lateAborted7_planCompiles :
  planCompiles Fake.deserialize (Fake.isReady []) (Fake.buildInputs [])
    (Fake.starter None) Fake.logger (Fake.pipeline false None)
    (schedulerBuild Fake.lateAborted7) Fake.jobLate [] Fake.finished4
    (Fake.recordClaim 7 Fake.finished4) [] tt tt tt.
Proof.
  exists Fake.finished4, Fake.finished4, Fake.finished4,
    (Fake.recordClaim 7 Fake.finished4), (Fake.recordClaim 7 Fake.finished4),
    (Fake.recordClaim 7 Fake.finished4), (Fake.recordClaim 7 Fake.finished4),
    (Fake.recordClaim 7 Fake.finished4).
  repeat split; reflexivity.
Defined.

Lemma lost_start_race_finishes_aborted_witness :
  Fake.dispatch [] [] (fun _ => false) (Fake.starter None) Fake.logger
    (Fake.pipeline false None) Fake.jobLate [] [] tt Fake.empty
  = ((false, None),
     Fake.recordFinish 7 BuildStatusAborted (Fake.recordClaim 7 Fake.finished4),
     EGetPendingBuilds :: Fake.finishing4 ++ Fake.reachingStart 7
       ++ [EFinish 7 BuildStatusAborted])
  /\ Fake.buildsStarted
       (Fake.recordFinish 7 BuildStatusAborted (Fake.recordClaim 7 Fake.finished4))
     = 0%nat.
Proof.
  split; [|reflexivity].
  exact (proj2 (proj2 (proj2 (proj2 (proj2
    (lost_start_race_finishes_aborted Fake.deserialize (Fake.isReady [])
       (Fake.buildInputs []) Fake.inc (fun _ => false) (Fake.starter None)
       Fake.logger (Fake.pipeline false None) Fake.jobLate [] [] tt
       [Fake.aborted4] Fake.lateAborted7 []
       Fake.empty Fake.empty Fake.finished4 Fake.finishing4
       (Fake.recordClaim 7 Fake.finished4) (Fake.recordClaim 7 Fake.finished4)
       (Fake.recordFinish 7 BuildStatusAborted (Fake.recordClaim 7 Fake.finished4))
       [] tt tt tt None
       eq_refl eq_refl lateAborted7_planCompiles eq_refl eq_refl)))))).
Defined.

Lemma counter_only_after_start_witness :
  mkStartResults false true true = mkStartResults false true true
  /\ @None error = None
  /\ exists config rts inputs plan,
       Fake.reachingStart 1 ++ [EBuildsStartedInc]
       = startAttemptEvents Fake.deserialize []
           (schedulerBuild Fake.normal1 : Fake.SchedulerBuild)
           config rts inputs plan ++ [EBuildsStartedInc].
Proof.
  exact (counter_only_after_start Fake.deserialize (Fake.isReady [])
           (Fake.buildInputs []) Fake.inc (Fake.starter None) Fake.logger
           (Fake.pipeline false None) Fake.jobTwo []
           (schedulerBuild Fake.normal1) Fake.finished4
           (mkStartResults false true true) None
           (Fake.inc (Fake.recordStart 1 (Fake.recordClaim 1 Fake.finished4)))
           (Fake.reachingStart 1 ++ [EBuildsStartedInc])
           eq_refl
           (in_or_app _ _ _ (or_intror (in_eq _ _)))).
Defined.


Lemma build_error_ends_tick_witness :
  Fake.dispatch [] [] (fun _ => true) (Fake.starter None) Fake.logger
    (Fake.pipeline false None) Fake.jobUnstartable [] [] tt Fake.empty
  = ((false, Some (fmt_Errorf_w "start build" (ErrCollaborator "storage unreachable"))),
     Fake.recordClaim 9 Fake.started1,
     EGetPendingBuilds :: Fake.starting1 ++ Fake.reachingStart 9
       ++ [ELogError Fake.session "failed-to-mark-build-as-started"
             (ErrCollaborator "storage unreachable")]).
Proof.
  exact (build_error_ends_tick Fake.deserialize (Fake.isReady [])
           (Fake.buildInputs []) Fake.inc (fun _ => true) (Fake.starter None)
           Fake.logger (Fake.pipeline false None) Fake.jobUnstartable [] [] tt
           [Fake.normal1] Fake.unstartable9 [Fake.normal3]
           Fake.empty Fake.empty Fake.started1 Fake.starting1
           startResults_zero
           (fmt_Errorf_w "start build" (ErrCollaborator "storage unreachable"))
           (Fake.recordClaim 9 Fake.started1)
           (Fake.reachingStart 9
            ++ [ELogError Fake.session "failed-to-mark-build-as-started"
                  (ErrCollaborator "storage unreachable")])
           eq_refl eq_refl eq_refl).
Defined.

Lemma paused_stops_tick_with_retry_witness :
  let '((retry, err), w', t) :=
    Fake.dispatch [] [] (fun _ => false) (Fake.starter None) Fake.logger
      (Fake.pipeline false None) Fake.jobPaused [] [] tt Fake.empty in
  retry = true
  /\ err = None
  /\ exists tb,
       t = EGetPendingBuilds :: Fake.finishing4 ++ tb
       /\ abortChecks tb = [1]
       /\ filter is_claim tb = []
       /\ filter is_status_write tb = [].
Proof.
  exact (paused_stops_tick_with_retry Fake.deserialize (Fake.isReady [])
           (Fake.buildInputs []) Fake.inc (fun _ => false) (Fake.starter None)
           Fake.logger (Fake.pipeline false None) Fake.jobPaused [] [] tt
           [Fake.aborted4] Fake.normal1 [Fake.normal3]
           Fake.empty Fake.empty Fake.finished4 Fake.finishing4
           Fake.finished4 Fake.finished4 Fake.finished4 false true
           eq_refl eq_refl eq_refl eq_refl eq_refl (or_intror eq_refl)).
Defined.

Lemma builds_evaluated_in_order_witness :
  exists k,
    abortChecks (snd (Fake.dispatch [] [] (fun _ => false) (Fake.starter None)
                        Fake.logger (Fake.pipeline false None) Fake.jobPaused
                        [] [] tt Fake.empty))
    = firstn k [4; 1; 3].
Proof.
  exact (builds_evaluated_in_order Fake.deserialize (Fake.isReady [])
           (Fake.buildInputs []) Fake.inc (fun _ => false) (Fake.starter None)
           Fake.logger (Fake.pipeline false None) Fake.jobPaused [] [] tt
           Fake.empty [Fake.aborted4; Fake.normal1; Fake.normal3] Fake.empty eq_refl).
Defined.

Lemma quiet_tick_evaluated_every_build_witness :
  abortChecks (EGetPendingBuilds :: Fake.finishing4 ++ Fake.reachingStart 1
                 ++ [EBuildsStartedInc])
  = [4; 1].
Proof.
  exact (quiet_tick_evaluated_every_build Fake.deserialize (Fake.isReady [])
           (Fake.buildInputs []) Fake.inc (fun _ => false) (Fake.starter None)
           Fake.logger (Fake.pipeline false None) Fake.jobTwo [] [] tt
           Fake.empty [Fake.aborted4; Fake.normal1] Fake.empty
           (Fake.inc (Fake.recordStart 1 (Fake.recordClaim 1 Fake.finished4)))
           (EGetPendingBuilds :: Fake.finishing4 ++ Fake.reachingStart 1
              ++ [EBuildsStartedInc])
           eq_refl eq_refl).
Defined.

(** * Properties of the task config sources *)

(** *** Cutting a path *)

Lemma cut_none sep s : Exec.cut sep s = None <-> Exec.occurs sep s = false.
Proof.
  induction s as [|c rest IH]; cbn; [tauto|].
  destruct (Ascii.eqb c sep); cbn; [split; discriminate|].
  destruct (Exec.cut sep rest) as [[a b]|]; [|tauto].
  split; [discriminate|].
  intros H. apply IH in H. discriminate.
Qed.

Lemma cut_some sep s before after :
  Exec.cut sep s = Some (before, after) ->
  s = (before ++ String sep after)%string /\ Exec.occurs sep before = false.
Proof.
  revert before. induction s as [|c rest IH]; intros before; cbn; [discriminate|].
  destruct (Ascii.eqb_spec c sep) as [->|Hne].
  - intros H. inversion H; subst. split; reflexivity.
  - destruct (Exec.cut sep rest) as [[a b]|]; [|discriminate].
    intros H. inversion H; subst.
    destruct (IH a eq_refl) as [-> Ha]. split; [reflexivity|].
    cbn. rewrite Ha. destruct (Ascii.eqb_spec c sep); [contradiction|reflexivity].
Qed.

(** *** Maps *)

Lemma get_set_same k v m : Exec.get k (Exec.set k v m) = Some v.
Proof.
  induction m as [|[k' v'] rest IH]; cbn.
  - now rewrite String.eqb_refl.
  - destruct (String.eqb k' k) eqn:E; cbn; rewrite E; [reflexivity|exact IH].
Qed.

Lemma get_set_other k k' v m :
  k <> k' -> Exec.get k' (Exec.set k v m) = Exec.get k' m.
Proof.
  intros Hne. induction m as [|[k0 v0] rest IH]; cbn.
  - destruct (String.eqb_spec k k'); [contradiction|reflexivity].
  - destruct (String.eqb_spec k0 k) as [->|Hk]; cbn.
    + destruct (String.eqb_spec k k'); [contradiction|reflexivity].
    + destruct (String.eqb k0 k'); [reflexivity|exact IH].
Qed.

Section ExecProperties.

Context {W OtherFields Data : Type}.

Variable zeroFields : OtherFields.
Variable json_Marshal : Data -> string * option Exec.error.
Variable LoadTaskConfig :
  string -> @Exec.atc_TaskConfig OtherFields * option Exec.error.
Variable Merge :
  @Exec.atc_TaskConfig OtherFields -> @Exec.atc_TaskConfig OtherFields ->
  @Exec.atc_TaskConfig OtherFields.

Local Notation "'Source'" := (@Exec.TaskConfigSource W OtherFields).
Local Notation "'File_Fetch'" := (@Exec.File_FetchConfig W OtherFields zeroFields LoadTaskConfig).
Local Notation "'Static_Fetch'" :=
  (@Exec.Static_FetchConfig OtherFields Data zeroFields json_Marshal).
Local Notation "'zero'" := (@Exec.TaskConfig_zero OtherFields zeroFields).

(** X16.  A path with no slash in it, the empty path included, is refused
    with [UnspecifiedArtifactSourceError] carrying the path, and neither the
    repository nor any stream is touched. *)
Theorem file_path_without_slash_refused Path repo (w : W) :
  Exec.occurs "/"%char Path = false ->
  File_Fetch Path repo w
  = ((zero, Some (Exec.UnspecifiedArtifactSourceError Path)), w, []).
Proof.
  intros H. apply cut_none in H.
  unfold Exec.File_FetchConfig, Exec.strings_SplitN_2. rewrite H. reflexivity.
Qed.

(** X17.  A path with a slash in it is cut at its first slash: the source
    asked of the repository is named by what is before that slash, which has
    no slash in it, the file streamed is what is after it, and the two put
    back around a slash give the path.  When the repository has no such
    source the result is [UnknownArtifactSourceError] with that name and
    nothing is streamed; when the source cannot stream the file its error
    is returned as it is. *)
Theorem file_path_cut_at_first_slash Path :
  Exec.occurs "/"%char Path = true ->
  exists sourceName filePath,
    Path = (sourceName ++ "/" ++ filePath)%string
    /\ Exec.occurs "/"%char sourceName = false
    /\ (forall repo (w w1 : W),
          Exec.SourceFor repo sourceName w = (None, w1) ->
          File_Fetch Path repo w
          = ((zero, Some (Exec.UnknownArtifactSourceError sourceName)), w1,
             [Exec.ESourceFor sourceName]))
    /\ (forall repo (w w1 w2 : W) source stream e,
          Exec.SourceFor repo sourceName w = (Some source, w1) ->
          Exec.StreamFile source filePath w1 = ((stream, Some e), w2) ->
          File_Fetch Path repo w
          = ((zero, Some e), w2,
             [Exec.ESourceFor sourceName; Exec.EStreamFile filePath])).
Proof.
  intros H.
  destruct (Exec.cut "/"%char Path) as [[name file]|] eqn:Hcut.
  2: { apply cut_none in Hcut. congruence. }
  destruct (cut_some _ _ _ _ Hcut) as [Heq Hname].
  exists name, file. split; [exact Heq|]. split; [exact Hname|].
  split.
  - intros repo w w1 Hs.
    unfold Exec.File_FetchConfig, Exec.strings_SplitN_2. rewrite Hcut. cbn.
    rewrite Hs. reflexivity.
  - intros repo w w1 w2 source stream e Hs Hf.
    unfold Exec.File_FetchConfig, Exec.strings_SplitN_2. rewrite Hcut. cbn.
    rewrite Hs, Hf. reflexivity.
Qed.

(** X18.  Once the file's stream is open it is closed on every return:
    whatever reading it and loading the config give, the calls are the
    lookup, the opening, the read and then the close, and the world is the
    one the close leaves.  A read error is returned as it is; a load error
    is returned as the text "failed to load <path>: <error text>"; otherwise
    the loaded config is returned. *)
Theorem file_stream_always_closed
    Path sourceName filePath repo (w w1 w2 w3 : W) source stream streamedFile rerr :
  Exec.cut "/"%char Path = Some (sourceName, filePath) ->
  Exec.SourceFor repo sourceName w = (Some source, w1) ->
  Exec.StreamFile source filePath w1 = ((stream, None), w2) ->
  Exec.ReadAll stream w2 = ((streamedFile, rerr), w3) ->
  File_Fetch Path repo w
  = (match rerr with
     | Some e => (zero, Some e)
     | None =>
         match LoadTaskConfig streamedFile with
         | (_, Some e) =>
             (zero,
              Some (Exec.fmt_Errorf
                      ("failed to load " ++ Path ++ ": " ++ Exec.Error_ e)%string))
         | (config, None) => (config, None)
         end
     end,
     Exec.Close stream w3,
     [Exec.ESourceFor sourceName; Exec.EStreamFile filePath;
      Exec.EReadAll; Exec.EClose]).
Proof.
  intros Hcut Hs Hf Hr.
  unfold Exec.File_FetchConfig, Exec.strings_SplitN_2. rewrite Hcut. cbn.
  rewrite Hs, Hf, Hr. destruct rerr; [reflexivity|].
  destruct (LoadTaskConfig streamedFile) as [config [e|]]; reflexivity.
Qed.

(** *** The static source *)

Lemma entry_absent key (entries : list (string * @Exec.ParamValue Data)) :
  ~ In key (map fst entries) -> Exec.entry key entries = None.
Proof.
  induction entries as [|[k v] rest IH]; cbn; [reflexivity|].
  intros H. destruct (String.eqb_spec k key) as [->|Hne].
  - exfalso. apply H. now left.
  - apply IH. intros Hin. apply H. now right.
Qed.

(** The loop of lines 311-318 when every value converts. *)
Lemma setParams_converting entries params :
  NoDup (map fst entries) ->
  Forall (fun kv => snd (Exec.toString json_Marshal (snd kv)) = None) entries ->
  exists params',
    Exec.setParams json_Marshal entries params = (params', None)
    /\ forall key,
         Exec.get key params'
         = match Exec.entry key entries with
           | Some val => Some (fst (Exec.toString json_Marshal val))
           | None => Exec.get key params
           end.
Proof.
  revert params. induction entries as [|[k v] rest IH]; intros params Hnd Hall.
  - exists params. split; reflexivity.
  - inversion Hnd as [|? ? Hnotin Hnd']; subst.
    inversion Hall as [|? ? Hv Hall']; subst. cbn in Hv.
    cbn [Exec.setParams].
    destruct (Exec.toString json_Marshal v) as [strVal err] eqn:Et.
    cbn in Hv. subst err.
    destruct (IH (Exec.set k strVal params) Hnd' Hall') as [params' [Hrun Hget]].
    exists params'. split; [exact Hrun|].
    intros key. rewrite Hget. cbn [Exec.entry].
    destruct (String.eqb_spec k key) as [->|Hne].
    + rewrite (entry_absent _ _ Hnotin), get_set_same, Et. reflexivity.
    + destruct (Exec.entry key rest); [reflexivity|].
      now apply get_set_other.
Qed.

Lemma Static_Fetch_converting plan config :
  Exec.Config plan = Some config ->
  NoDup (map fst (Exec.Plan_Params plan)) ->
  Forall (fun kv => snd (Exec.toString json_Marshal (snd kv)) = None)
    (Exec.Plan_Params plan) ->
  exists params plan',
    Static_Fetch plan
    = Some (({| Exec.Params := Some params; Exec.Fields := Exec.Fields config |}, None),
            plan')
    /\ forall key,
         Exec.get key params
         = match Exec.entry key (Exec.Plan_Params plan) with
           | Some val => Some (fst (Exec.toString json_Marshal val))
           | None => match Exec.Params config with
                     | Some m => Exec.get key m
                     | None => None
                     end
           end.
Proof.
  intros Hc Hnd Hall. unfold Exec.Static_FetchConfig. rewrite Hc.
  destruct (setParams_converting (Exec.Plan_Params plan)
              match Exec.Params config with None => [] | Some m => m end Hnd Hall)
    as [params' [Hrun Hget]].
  rewrite Hrun. eexists params', _. split; [reflexivity|].
  intros key. rewrite Hget.
  destruct (Exec.entry key (Exec.Plan_Params plan)); [reflexivity|].
  destruct (Exec.Params config); reflexivity.
Qed.

Lemma Static_Fetch_plan_after plan config cfg plan' :
  Exec.Config plan = Some config ->
  Static_Fetch plan = Some ((cfg, None), plan') ->
  Exec.Plan_Params plan' = Exec.Plan_Params plan
  /\ Exec.ConfigPath plan' = Exec.ConfigPath plan
  /\ match Exec.Params config with
     | Some _ => Exec.Config plan' = Some cfg
     | None => plan' = plan
     end.
Proof.
  intros Hc. unfold Exec.Static_FetchConfig. rewrite Hc.
  destruct (Exec.setParams json_Marshal (Exec.Plan_Params plan) _)
    as [params' [e|]]; [discriminate|].
  intros H. inversion H; subst; clear H.
  destruct (Exec.Params config); repeat split.
Qed.

(** X19.  When the plan has an inline config, its params have distinct keys
    and each value converts to a string, [StaticConfigSource.FetchConfig]
    returns the inline config with a non-nil params map in which every key of
    the plan's params holds the plan's value, converted, and every other key
    holds what the inline config had for it; the other fields are those of
    the inline config.  The outcome does not depend on the order in which
    the params are visited. *)
Theorem static_params_override plan config :
  Exec.Config plan = Some config ->
  NoDup (map fst (Exec.Plan_Params plan)) ->
  Forall (fun kv => snd (Exec.toString json_Marshal (snd kv)) = None)
    (Exec.Plan_Params plan) ->
  exists params plan',
    Static_Fetch plan
    = Some (({| Exec.Params := Some params; Exec.Fields := Exec.Fields config |}, None),
            plan')
    /\ forall key,
         Exec.get key params
         = match Exec.entry key (Exec.Plan_Params plan) with
           | Some val => Some (fst (Exec.toString json_Marshal val))
           | None => match Exec.Params config with
                     | Some m => Exec.get key m
                     | None => None
                     end
           end.
Proof. exact (Static_Fetch_converting plan config). Qed.

(** X20.  [StaticConfigSource.FetchConfig] writes into the params map of the
    plan's own inline config when that map is not nil: after a call that
    returns without error, the plan's inline config holds the very params
    that were returned.  When the inline config has nil params the plan is
    left as it was. *)
Theorem static_fetch_writes_through plan config cfg plan' :
  Exec.Config plan = Some config ->
  Static_Fetch plan = Some ((cfg, None), plan') ->
  Exec.Plan_Params plan' = Exec.Plan_Params plan
  /\ Exec.ConfigPath plan' = Exec.ConfigPath plan
  /\ match Exec.Params config with
     | Some _ => Exec.Config plan' = Some cfg
     | None => plan' = plan
     end.
Proof. exact (Static_Fetch_plan_after plan config cfg plan'). Qed.

(** X21.  Under the conditions of X19, fetching a second time from the plan
    as the first call left it returns the same params, key for key. *)
Theorem static_fetch_twice plan config :
  Exec.Config plan = Some config ->
  NoDup (map fst (Exec.Plan_Params plan)) ->
  Forall (fun kv => snd (Exec.toString json_Marshal (snd kv)) = None)
    (Exec.Plan_Params plan) ->
  exists params plan' params2 plan2,
    Static_Fetch plan
    = Some (({| Exec.Params := Some params; Exec.Fields := Exec.Fields config |}, None),
            plan')
    /\ Static_Fetch plan'
       = Some (({| Exec.Params := Some params2; Exec.Fields := Exec.Fields config |},
                None), plan2)
    /\ forall key, Exec.get key params2 = Exec.get key params.
Proof.
  intros Hc Hnd Hall.
  destruct (Static_Fetch_converting plan config Hc Hnd Hall)
    as [params [plan' [Hrun Hget]]].
  destruct (Static_Fetch_plan_after _ _ _ _ Hc Hrun) as [Hpp [_ Hcfg]].
  exists params, plan'.
  destruct (Exec.Params config) as [m|] eqn:Hm.
  - rewrite <- Hpp in Hnd, Hall.
    destruct (Static_Fetch_converting plan' _ Hcfg Hnd Hall)
      as [params2 [plan2 [Hrun2 Hget2]]].
    cbn in Hrun2, Hget2.
    exists params2, plan2. split; [exact Hrun|]. split; [exact Hrun2|].
    intros key. rewrite Hget2, Hpp, Hget.
    destruct (Exec.entry key (Exec.Plan_Params plan)); reflexivity.
  - subst plan'. exists params, plan.
    split; [exact Hrun|]. split; [exact Hrun|]. reflexivity.
Qed.

Lemma entry_permutation key (l l' : list (string * @Exec.ParamValue Data)) :
  Permutation l l' ->
  NoDup (map fst l) ->
  Exec.entry key l = Exec.entry key l'.
Proof.
  induction 1 as [|[k v] l l' Hp IH|[k1 v1] [k2 v2] l|l l' l'' Hp1 IH1 Hp2 IH2];
    intros Hnd.
  - reflexivity.
  - cbn. inversion Hnd; subst.
    destruct (String.eqb k key); [reflexivity|auto].
  - cbn. inversion Hnd as [|? ? Hnotin _]; subst.
    destruct (String.eqb_spec k1 key) as [->|H1];
      destruct (String.eqb_spec k2 key) as [->|H2]; try reflexivity.
    exfalso. apply Hnotin. now left.
  - rewrite IH1 by exact Hnd. apply IH2.
    apply (Permutation_NoDup (Permutation_map fst Hp1) Hnd).
Qed.

(** X25.  The order in which the plan's params are visited does not matter
    when every value converts: two plans that differ only in that order,
    with distinct keys, give configs whose params agree key for key. *)
Theorem static_visiting_order_irrelevant plan1 plan2 config :
  Exec.Config plan1 = Some config ->
  Exec.Config plan2 = Some config ->
  Permutation (Exec.Plan_Params plan1) (Exec.Plan_Params plan2) ->
  NoDup (map fst (Exec.Plan_Params plan1)) ->
  Forall (fun kv => snd (Exec.toString json_Marshal (snd kv)) = None)
    (Exec.Plan_Params plan1) ->
  exists params1 plan1' params2 plan2',
    Static_Fetch plan1
    = Some (({| Exec.Params := Some params1; Exec.Fields := Exec.Fields config |}, None),
            plan1')
    /\ Static_Fetch plan2
       = Some (({| Exec.Params := Some params2; Exec.Fields := Exec.Fields config |},
                None), plan2')
    /\ forall key, Exec.get key params1 = Exec.get key params2.
Proof.
  intros Hc1 Hc2 Hperm Hnd Hall.
  destruct (Static_Fetch_converting plan1 config Hc1 Hnd Hall)
    as [params1 [plan1' [Hrun1 Hget1]]].
  assert (Hnd2 : NoDup (map fst (Exec.Plan_Params plan2)))
    by exact (Permutation_NoDup (Permutation_map fst Hperm) Hnd).
  assert (Hall2 : Forall (fun kv => snd (Exec.toString json_Marshal (snd kv)) = None)
                    (Exec.Plan_Params plan2))
    by exact (Permutation_Forall Hperm Hall).
  destruct (Static_Fetch_converting plan2 config Hc2 Hnd2 Hall2)
    as [params2 [plan2' [Hrun2 Hget2]]].
  exists params1, plan1', params2, plan2'.
  split; [exact Hrun1|]. split; [exact Hrun2|].
  intros key. now rewrite Hget1, Hget2, (entry_permutation key _ _ Hperm Hnd).
Qed.

Lemma setParams_fails before key data after text e params :
  Forall (fun kv => snd (Exec.toString json_Marshal (snd kv)) = None) before ->
  json_Marshal data = (text, Some e) ->
  exists params',
    Exec.setParams json_Marshal (before ++ (key, Exec.OtherValue data) :: after) params
    = (params', Some e).
Proof.
  intros Hbefore Hm. revert params.
  induction before as [|[k v] rest IH]; intros params; cbn.
  - rewrite Hm. eexists; reflexivity.
  - inversion Hbefore as [|? ? Hv Hrest]; subst. cbn in Hv.
    destruct (Exec.toString json_Marshal v) as [strVal err]. cbn in Hv. subst err.
    apply (IH Hrest).
Qed.

Lemma setParams_strings (entries : list (string * @Exec.ParamValue Data)) params :
  Forall (fun kv => exists data, snd kv = Exec.StringValue data) entries ->
  exists params', Exec.setParams json_Marshal entries params = (params', None).
Proof.
  intros Hall. revert params.
  induction entries as [|[k v] rest IH]; intros params; cbn.
  - eexists; reflexivity.
  - inversion Hall as [|? ? [data Hv] Hrest]; subst. cbn in Hv. subst v. cbn.
    apply (IH Hrest).
Qed.

(** X22.  Only a value that is not a string can make
    [StaticConfigSource.FetchConfig] fail: when the values before it convert
    and [json.Marshal] fails on it, the call returns the zero config with
    that very error; when every value of the plan's params is a string, the
    call returns without error. *)
Theorem static_fetch_fails_on_marshal plan config :
  Exec.Config plan = Some config ->
  (forall before key data after text e,
      Exec.Plan_Params plan = before ++ (key, Exec.OtherValue data) :: after ->
      Forall (fun kv => snd (Exec.toString json_Marshal (snd kv)) = None) before ->
      json_Marshal data = (text, Some e) ->
      exists plan', Static_Fetch plan = Some ((zero, Some e), plan'))
  /\ (Forall (fun kv => exists data, snd kv = Exec.StringValue data)
        (Exec.Plan_Params plan) ->
      exists cfg plan', Static_Fetch plan = Some ((cfg, None), plan')).
Proof.
  intros Hc. split.
  - intros before key data after text e Hpp Hbefore Hm.
    destruct (setParams_fails before key data after text e
                match Exec.Params config with None => [] | Some m => m end
                Hbefore Hm) as [params' Hrun].
    rewrite <- Hpp in Hrun.
    unfold Exec.Static_FetchConfig. rewrite Hc, Hrun. eexists; reflexivity.
  - intros Hall.
    destruct (setParams_strings (Exec.Plan_Params plan)
                match Exec.Params config with None => [] | Some m => m end Hall)
      as [params' Hrun].
    unfold Exec.Static_FetchConfig. rewrite Hc, Hrun. do 2 eexists; reflexivity.
Qed.

(** *** Composed sources *)


Lemma printWarnings_written Stderr warnings (w : W) :
  Exec.written (snd (Exec.printWarnings Stderr warnings w))
  = map (fun warning => (warning ++ String (Ascii.ascii_of_nat 10) EmptyString)%string)
      warnings.
Proof.
  revert w. induction warnings as [|x rest IH]; intros w; [reflexivity|].
  cbn. specialize (IH (Exec.Write Stderr
                         (x ++ String (Ascii.ascii_of_nat 10) EmptyString)%string w)).
  destruct (Exec.printWarnings Stderr rest _) as [w2 t2]. cbn in IH |- *.
  now rewrite IH.
Qed.

(** X24.  A deprecation source writes the warnings of its delegate to its
    writer, one line each and in order, after a fetch that succeeded, and
    writes nothing after one that failed; in both cases it passes on the
    delegate's result, and reports no warnings of its own. *)
Theorem deprecation_prints_after_success (Delegate : Source) Stderr repo (w : W) :
  let '((config, err), w1, t1) := Exec.FetchConfig Delegate repo w in
  let '((config', err'), w2, t) :=
    Exec.FetchConfig (Exec.DeprecationConfigSource zeroFields Delegate Stderr) repo w in
  err' = err
  /\ Exec.written t
     = Exec.written t1
       ++ match err with
          | Some _ => []
          | None =>
              map (fun warning =>
                     (warning ++ String (Ascii.ascii_of_nat 10) EmptyString)%string)
                (Exec.Warnings Delegate)
          end
  /\ (err = None -> config' = config)
  /\ Exec.Warnings (Exec.DeprecationConfigSource zeroFields Delegate Stderr) = [].
Proof.
  cbn. unfold Exec.Deprecation_FetchConfig.
  destruct (Exec.FetchConfig Delegate repo w) as [[[config [e|]] w1] t1].
  - repeat split; [now rewrite app_nil_r|discriminate].
  - pose proof (printWarnings_written Stderr (Exec.Warnings Delegate) w1) as Hw.
    destruct (Exec.printWarnings Stderr (Exec.Warnings Delegate) w1) as [w2 t2].
    cbn in Hw. repeat split.
    unfold Exec.written in *. now rewrite flat_map_app, Hw.
Qed.

End ExecProperties.

(** * Concrete runs of the task config sources *)

Lemma file_path_without_slash_refused_witness :
  Exec.File_FetchConfig tt ExecFake.load "task.yml" ExecFake.repo ExecFake.start
  = ((Exec.TaskConfig_zero tt, Some (Exec.UnspecifiedArtifactSourceError "task.yml")),
     ExecFake.start, []).
Proof.
  exact (file_path_without_slash_refused tt ExecFake.load "task.yml"
           ExecFake.repo ExecFake.start eq_refl).
Defined.

Lemma file_path_cut_at_first_slash_witness :
  exists sourceName filePath,
    "other/ci/task.yml"%string = (sourceName ++ "/" ++ filePath)%string
    /\ Exec.occurs "/"%char sourceName = false
    /\ (forall repo (w w1 : ExecFake.World),
          Exec.SourceFor repo sourceName w = (None, w1) ->
          Exec.File_FetchConfig tt ExecFake.load "other/ci/task.yml" repo w
          = ((Exec.TaskConfig_zero tt,
              Some (Exec.UnknownArtifactSourceError sourceName)), w1,
             [Exec.ESourceFor sourceName]))
    /\ (forall repo (w w1 w2 : ExecFake.World) source stream e,
          Exec.SourceFor repo sourceName w = (Some source, w1) ->
          Exec.StreamFile source filePath w1 = ((stream, Some e), w2) ->
          Exec.File_FetchConfig tt ExecFake.load "other/ci/task.yml" repo w
          = ((Exec.TaskConfig_zero tt, Some e), w2,
             [Exec.ESourceFor sourceName; Exec.EStreamFile filePath])).
Proof.
  exact (file_path_cut_at_first_slash tt ExecFake.load "other/ci/task.yml" eq_refl).
Defined.

Lemma file_stream_always_closed_witness :
  Exec.File_FetchConfig tt ExecFake.load "repo/empty.yml" ExecFake.repo ExecFake.start
  = ((Exec.TaskConfig_zero tt,
      Some (Exec.fmt_Errorf "failed to load repo/empty.yml: empty task config")),
     ([], 1%nat),
     [Exec.ESourceFor "repo"; Exec.EStreamFile "empty.yml"; Exec.EReadAll; Exec.EClose]).
Proof.
  exact (file_stream_always_closed tt ExecFake.load "repo/empty.yml" "repo" "empty.yml"
           ExecFake.repo ExecFake.start ExecFake.start ExecFake.start ExecFake.start
           _ (ExecFake.stream "" None) "" None
           eq_refl eq_refl eq_refl eq_refl).
Defined.

Lemma plan_keys_distinct : NoDup (map fst (Exec.Plan_Params ExecFake.plan)).
Proof.
  cbn. repeat constructor; cbn; intuition discriminate.
Defined.

Lemma plan_values_convert :
  Forall (fun kv => snd (Exec.toString ExecFake.marshal (snd kv)) = None)
    (Exec.Plan_Params ExecFake.plan).
Proof.
  repeat constructor.
Defined.

Lemma static_params_override_witness :
  exists params plan',
    Exec.Static_FetchConfig tt ExecFake.marshal ExecFake.plan
    = Some (({| Exec.Params := Some params; Exec.Fields := tt |}, None), plan')
    /\ forall key,
         Exec.get key params
         = match Exec.entry key (Exec.Plan_Params ExecFake.plan) with
           | Some val => Some (fst (Exec.toString ExecFake.marshal val))
           | None => Exec.get key [("A", "1"); ("B", "2")]%string
           end.
Proof.
  exact (static_params_override tt ExecFake.marshal ExecFake.plan _
           eq_refl plan_keys_distinct plan_values_convert).
Defined.

Lemma static_fetch_writes_through_witness :
  Exec.Plan_Params ExecFake.planAfter = Exec.Plan_Params ExecFake.plan
  /\ Exec.ConfigPath ExecFake.planAfter = Exec.ConfigPath ExecFake.plan
  /\ Exec.Config ExecFake.planAfter
     = Some {| Exec.Params := Some [("A", "1"); ("B", "3"); ("C", "42")]%string;
               Exec.Fields := tt |}.
Proof.
  exact (static_fetch_writes_through tt ExecFake.marshal ExecFake.plan _
           {| Exec.Params := Some [("A", "1"); ("B", "3"); ("C", "42")]%string;
              Exec.Fields := tt |}
           ExecFake.planAfter eq_refl eq_refl).
Defined.

Lemma static_fetch_twice_witness :
  exists params plan' params2 plan2,
    Exec.Static_FetchConfig tt ExecFake.marshal ExecFake.plan
    = Some (({| Exec.Params := Some params; Exec.Fields := tt |}, None), plan')
    /\ Exec.Static_FetchConfig tt ExecFake.marshal plan'
       = Some (({| Exec.Params := Some params2; Exec.Fields := tt |}, None), plan2)
    /\ forall key, Exec.get key params2 = Exec.get key params.
Proof.
  exact (static_fetch_twice tt ExecFake.marshal ExecFake.plan _
           eq_refl plan_keys_distinct plan_values_convert).
Defined.

Lemma badPlan_first_value_converts :
  Forall (fun kv => snd (Exec.toString ExecFake.marshal (snd kv)) = None)
    [("B"%string, @Exec.StringValue nat "3")].
Proof.
  repeat constructor.
Defined.

Lemma static_fetch_fails_on_marshal_witness :
  exists plan',
    Exec.Static_FetchConfig tt ExecFake.marshal ExecFake.badPlan
    = Some ((Exec.TaskConfig_zero tt,
             Some (Exec.CollaboratorError "unsupported value")), plan').
Proof.
  exact (proj1 (static_fetch_fails_on_marshal tt ExecFake.marshal ExecFake.badPlan _
                  eq_refl)
           [("B"%string, Exec.StringValue "3")] "C"%string 0%nat
           [("D"%string, Exec.StringValue "4")] EmptyString
           (Exec.CollaboratorError "unsupported value")
           eq_refl badPlan_first_value_converts eq_refl).
Defined.



(** A deprecation source around a merge of a file and a fixed config: the
    config is fetched, the stream closed, and the warning printed. *)
Example run_deprecation_over_merge :
  Exec.FetchConfig
    (Exec.DeprecationConfigSource tt
       (Exec.MergedConfigSource tt ExecFake.merge
          (Exec.FileConfigSource tt ExecFake.load "repo/task.yml")
          (ExecFake.fixed [("A", "1")]%string None ["careful"%string]))
       ExecFake.stderr)
    ExecFake.repo ExecFake.start
  = (({| Exec.Params := Some [("FILE", "platform: linux"); ("A", "1")]%string;
         Exec.Fields := tt |}, None),
     ([String.append "careful" (String (Ascii.ascii_of_nat 10) EmptyString)], 1%nat),
     [Exec.ESourceFor "repo"; Exec.EStreamFile "task.yml"; Exec.EReadAll; Exec.EClose;
      Exec.EWrite (String.append "careful" (String (Ascii.ascii_of_nat 10) EmptyString))]).
Proof. reflexivity. Qed.

Lemma static_visiting_order_irrelevant_witness :
  exists params1 plan1' params2 plan2',
    Exec.Static_FetchConfig tt ExecFake.marshal ExecFake.plan
    = Some (({| Exec.Params := Some params1; Exec.Fields := tt |}, None), plan1')
    /\ Exec.Static_FetchConfig tt ExecFake.marshal ExecFake.planReversed
       = Some (({| Exec.Params := Some params2; Exec.Fields := tt |}, None), plan2')
    /\ forall key, Exec.get key params1 = Exec.get key params2.
Proof.
  exact (static_visiting_order_irrelevant tt ExecFake.marshal ExecFake.plan
           ExecFake.planReversed _ eq_refl eq_refl (perm_swap _ _ [])
           plan_keys_distinct plan_values_convert).
Defined.

Lemma deprecation_prints_after_success_witness :
  let Delegate := ExecFake.fixed [("A", "1")]%string None ["one"; "two"]%string in
  let '((config, err), w1, t1) :=
    Exec.FetchConfig Delegate ExecFake.repo ExecFake.start in
  let '((config', err'), w2, t) :=
    Exec.FetchConfig (Exec.DeprecationConfigSource tt Delegate ExecFake.stderr)
      ExecFake.repo ExecFake.start in
  err' = err
  /\ Exec.written t
     = Exec.written t1
       ++ match err with
          | Some _ => []
          | None =>
              map (fun warning =>
                     (warning ++ String (Ascii.ascii_of_nat 10) EmptyString)%string)
                (Exec.Warnings Delegate)
          end
  /\ (err = None -> config' = config)
  /\ Exec.Warnings (Exec.DeprecationConfigSource tt Delegate ExecFake.stderr) = [].
Proof.
  exact (deprecation_prints_after_success tt
           (ExecFake.fixed [("A", "1")]%string None ["one"; "two"]%string)
           ExecFake.stderr ExecFake.repo ExecFake.start).
Defined.
